(** * tacopie: tcp_socket and tcp_server

    A shallow embedding of [sources/network/tcp_socket.cpp] and
    [sources/network/tcp_server.cpp].

    The C++ methods mutate [*this] and leave through [return] or through an
    exception; a mutation made before a [throw] stays.  They are written
    here in a state-and-exception monad [M St A]: a computation takes the
    object state and the trace of observable events so far and gives an
    outcome, the new state and the extended trace.  System calls, log lines,
    the mutex and the mutations of the client list are the observable
    events. *)

From stdpp Require Import base numbers option list strings gmap.
From Stdlib Require Import Init.Byte.

Open Scope Z_scope.

(** ** Errors, logging *)

(** The levels handed to [__TACOPIE_LOG] and [__TACOPIE_THROW]. *)
Inductive log_level := debug | info | warn | error.

(** [tacopie::tacopie_error].  The macro [__TACOPIE_THROW(level, what)] is
    declared in [tacopie/error.hpp], which is not among the sources; it is
    taken to raise a [tacopie_error] that carries the two arguments it is
    given. *)
Record tacopie_error := { err_level : log_level; what : string }.

#[global] Instance log_level_eq_dec : EqDecision log_level.
Proof. solve_decision. Defined.
#[global] Instance tacopie_error_eq_dec : EqDecision tacopie_error.
Proof. solve_decision. Defined.

(** ** What the operating system sees *)

Definition fd_t := Z.

(** [struct sockaddr_in], fields as the host reads them ([sin_port] is kept
    in network byte order by the system). *)
Record sockaddr_in := { sin_family : Z; sin_port : Z; sin_addr : Z }.

Definition AF_INET : Z := 2.

Inductive syscall :=
  | sys_socket
  | sys_recv (fd : fd_t) (size_to_read : nat)
  | sys_send (fd : fd_t) (data : list byte) (size_to_write : nat)
  | sys_gethostbyname (host : string)
  | sys_connect (fd : fd_t) (addr : sockaddr_in)
  | sys_bind (fd : fd_t) (addr : sockaddr_in)
  | sys_listen (fd : fd_t) (backlog : Z)
  | sys_accept (fd : fd_t)
  | sys_close (fd : fd_t).

(** Handles of the [tcp_client] objects held through [std::shared_ptr]. *)
Definition handle := nat.

(** Mutations of [tcp_server::m_clients]. *)
Inductive clients_mutation :=
  | clients_push_back (client : handle)
  | clients_erase (client : handle)
  | clients_clear.

Inductive event :=
  | EvLog (l : log_level) (msg : string)
  | EvSys (c : syscall) (ret : Z)
  | EvLock
  | EvUnlock
  | EvClients (m : clients_mutation).

(** The platform: what each system call answers after a given history, the
    bytes [::recv] stores, the peer [::accept] reports, the resolver, the
    byte order of the host, and the backlog constant
    [__TACOPIE_CONNECTION_QUEUE_SIZE] (declared outside the sources). *)
Record platform := {
  sys_ret : list event → syscall → Z;
  recv_payload : list event → fd_t → nat → byte;
  accept_peer : list event → fd_t → sockaddr_in;
  hostent : list event → string → option Z;
  little_endian : bool;
  TACOPIE_CONNECTION_QUEUE_SIZE : nat
}.

(** ** The monad *)

Inductive outcome (A : Type) :=
  | Return (a : A)
  | Throw (e : tacopie_error)
  | Deadlock.
Arguments Return {A} a.
Arguments Throw {A} e.
Arguments Deadlock {A}.

Definition M (St A : Type) : Type :=
  St → list event → outcome A * St * list event.

Definition M_ret {St A} (a : A) : M St A := λ s t, (Return a, s, t).

Definition M_bind {St A B} (f : A → M St B) (m : M St A) : M St B :=
  λ s t,
    match m s t with
    | (Return a, s', t') => f a s' t'
    | (Throw e, s', t') => (Throw e, s', t')
    | (Deadlock, s', t') => (Deadlock, s', t')
    end.

#[global] Instance M_mret St : MRet (M St) := @M_ret St.
#[global] Instance M_mbind St : MBind (M St) := @M_bind St.

Definition throw {St A} (l : log_level) (msg : string) : M St A :=
  λ s t, (Throw {| err_level := l; what := msg |}, s, t).

Definition gets {St A} (f : St → A) : M St A := λ s t, (Return (f s), s, t).

Definition modify {St} (f : St → St) : M St unit := λ s t, (Return (), f s, t).

Definition emit {St} (e : event) : M St unit := λ s t, (Return (), s, t ++ [e]).

(** [__TACOPIE_LOG]. *)
Definition log {St} (l : log_level) (msg : string) : M St unit :=
  emit (EvLog l msg).

(** [try { m } catch (const tacopie::tacopie_error&) { h }]. *)
Definition try_catch {St A} (m : M St A) (h : M St A) : M St A :=
  λ s t,
    match m s t with
    | (Throw _, s', t') => h s' t'
    | r => r
    end.

(** Run a computation on a part of the state (a member object). *)
Definition zoom {St Sub A} (get : St → Sub) (set : Sub → St → St)
    (m : M Sub A) : M St A :=
  λ s t, let '(r, sub, t') := m (get s) t in (r, set sub s, t').

Fixpoint for_each {St A} (f : A → M St unit) (l : list A) : M St unit :=
  match l with
  | [] => mret ()
  | x :: l' => f x ;; for_each f l'
  end.

(** ** tcp_socket *)

Inductive type := UNKNOWN | CLIENT | SERVER.

#[global] Instance type_eq_dec : EqDecision type.
Proof. solve_decision. Defined.

Record tcp_socket := {
  m_fd : fd_t;
  m_host : string;
  m_port : Z;
  m_type : type
}.

Definition set_m_fd (fd : fd_t) (s : tcp_socket) : tcp_socket :=
  {| m_fd := fd; m_host := m_host s; m_port := m_port s; m_type := m_type s |}.

Definition set_m_type (t : type) (s : tcp_socket) : tcp_socket :=
  {| m_fd := m_fd s; m_host := m_host s; m_port := m_port s; m_type := t |}.

(** [tcp_socket::tcp_socket(void)]: the object it builds. *)
Definition tcp_socket_new : tcp_socket :=
  {| m_fd := -1; m_host := ""; m_port := 0; m_type := UNKNOWN |}.

(** [tcp_socket::tcp_socket(fd, host, port, t)]: the object it builds. *)
Definition tcp_socket_from (fd : fd_t) (host : string) (port : Z) (t : type)
    : tcp_socket :=
  {| m_fd := fd; m_host := host; m_port := port; m_type := t |}.

(** [tcp_socket::tcp_socket(tcp_socket&&)]: the new object and what is left
    of the source. *)
Definition tcp_socket_move (socket : tcp_socket) : tcp_socket * tcp_socket :=
  (socket, set_m_type UNKNOWN (set_m_fd (-1) socket)).

(** The three constructors as they run: each writes its log line and gives
    the object above. *)
Definition tcp_socket_ctor {St} : M St tcp_socket :=
  log debug "create tcp_socket" ;;
  mret tcp_socket_new.

Definition tcp_socket_ctor_from {St} (fd : fd_t) (host : string) (port : Z)
    (t : type) : M St tcp_socket :=
  log debug "create tcp_socket" ;;
  mret (tcp_socket_from fd host port t).

Definition tcp_socket_move_ctor {St} (socket : tcp_socket)
    : M St (tcp_socket * tcp_socket) :=
  log debug "moved tcp_socket" ;;
  mret (tcp_socket_move socket).

(** The conversion of a [std::size_t] to the [int] that [::listen] takes
    (32 bits, two's complement). *)
Definition int_of_size_t (n : nat) : Z :=
  let x := Z.of_nat n `mod` 2 ^ 32 in
  if decide (x < 2 ^ 31) then x else x - 2 ^ 32.

Section tcp_socket.
Variable P : platform.

Definition sys {St} (c : syscall) : M St Z :=
  λ s t, let r := sys_ret P t c in (Return r, s, t ++ [EvSys c r]).

(** [::recv(fd, data.data(), size_to_read, 0)]: the return value, and the
    buffer with the bytes the system stored at its front. *)
Definition sys_recv_into {St} (fd : fd_t) (size_to_read : nat)
    (data : list byte) : M St (Z * list byte) :=
  λ s t,
    let r := sys_ret P t (sys_recv fd size_to_read) in
    let data' :=
      imap (λ i b, if bool_decide (Z.of_nat i < r)
                   then recv_payload P t fd i else b) data in
    (Return (r, data'), s, t ++ [EvSys (sys_recv fd size_to_read) r]).

(** [::accept(fd, &client_info, &size)] *)
Definition sys_accept_from {St} (fd : fd_t) : M St (Z * sockaddr_in) :=
  λ s t,
    let r := sys_ret P t (sys_accept fd) in
    (Return (r, accept_peer P t fd), s, t ++ [EvSys (sys_accept fd) r]).

(** [gethostbyname(host.c_str())]: [None] is the null pointer, [Some a]
    a [hostent] whose first address is [a]. *)
Definition gethostbyname {St} (host : string) : M St (option Z) :=
  λ s t,
    let r := hostent P t host in
    (Return r, s,
     t ++ [EvSys (sys_gethostbyname host)
               match r with Some _ => 1 | None => 0 end]).

(** [htons] of a [uint32_t] argument: truncated to 16 bits, then put in
    network byte order. *)
Definition htons (x : Z) : Z :=
  let h := Z.land x 65535 in
  if little_endian P
  then Z.lor (Z.shiftl (Z.land h 255) 8) (Z.shiftr h 8)
  else h.

Definition create_socket_if_necessary : M tcp_socket unit :=
  fd ← gets m_fd;
  if decide (fd ≠ -1) then mret () else
  fd' ← sys sys_socket;
  modify (set_m_fd fd') ;;
  modify (set_m_type UNKNOWN) ;;
  if decide (fd' = -1)
  then throw error "tcp_socket::create_socket_if_necessary: socket() failure"
  else mret ().

Definition check_or_set_type (t : type) : M tcp_socket unit :=
  ty ← gets m_type;
  if decide (ty ≠ UNKNOWN ∧ ty ≠ t)
  then throw error "trying to perform invalid operation on socket"
  else modify (set_m_type t).

Definition recv (size_to_read : nat) : M tcp_socket (list byte) :=
  create_socket_if_necessary ;;
  check_or_set_type CLIENT ;;
  let data := replicate size_to_read x00 in
  fd ← gets m_fd;
  '(rd_size, data) ← sys_recv_into fd size_to_read data;
  if decide (rd_size = -1) then throw error "recv() failure" else
  if decide (rd_size = 0)
  then throw warn "nothing to read, socket has been closed by remote host"
  else mret data.

Definition send (data : list byte) (size_to_write : nat) : M tcp_socket Z :=
  create_socket_if_necessary ;;
  check_or_set_type CLIENT ;;
  fd ← gets m_fd;
  wr_size ← sys (sys_send fd data size_to_write);
  if decide (wr_size = -1) then throw error "send() failure" else
  mret wr_size.

Definition connect (host : string) (port : Z) : M tcp_socket unit :=
  create_socket_if_necessary ;;
  check_or_set_type CLIENT ;;
  addr ← gethostbyname host;
  match addr with
  | None => throw error "gethostbyname() failure"
  | Some a =>
      let server_addr :=
        {| sin_family := AF_INET; sin_port := htons port; sin_addr := a |} in
      fd ← gets m_fd;
      r ← sys (sys_connect fd server_addr);
      if decide (r = -1) then throw error "connect() failure" else mret ()
  end.

Definition bind (host : string) (port : Z) : M tcp_socket unit :=
  create_socket_if_necessary ;;
  check_or_set_type SERVER ;;
  addr ← gethostbyname host;
  match addr with
  | None => throw error "gethostbyname() failure"
  | Some a =>
      let server_addr :=
        {| sin_family := AF_INET; sin_port := htons port; sin_addr := a |} in
      fd ← gets m_fd;
      r ← sys (sys_bind fd server_addr);
      if decide (r = -1) then throw error "bind() failure" else mret ()
  end.

Definition listen (max_connection_queue : nat) : M tcp_socket unit :=
  create_socket_if_necessary ;;
  check_or_set_type SERVER ;;
  fd ← gets m_fd;
  r ← sys (sys_listen fd (int_of_size_t max_connection_queue));
  if decide (r = -1) then throw debug "listen() failure" else mret ().

Definition accept : M tcp_socket tcp_socket :=
  create_socket_if_necessary ;;
  check_or_set_type SERVER ;;
  fd ← gets m_fd;
  '(client_fd, client_info) ← sys_accept_from fd;
  if decide (client_fd = -1) then throw error "accept() failure" else
  tcp_socket_ctor_from client_fd "" (sin_port client_info) CLIENT.

Definition close : M tcp_socket unit :=
  fd ← gets m_fd;
  (if decide (fd ≠ -1)
   then log debug "close socket" ;; sys (sys_close fd) ;; mret ()
   else mret ()) ;;
  modify (set_m_fd (-1)) ;;
  modify (set_m_type UNKNOWN).

Definition get_host : M tcp_socket string := gets m_host.
Definition get_port : M tcp_socket Z := gets m_port.
Definition get_type : M tcp_socket type := gets m_type.
Definition get_fd : M tcp_socket fd_t := gets m_fd.

Definition set_type (t : type) : M tcp_socket unit := modify (set_m_type t).

(** [tcp_socket::operator==] *)
Definition tcp_socket_eqb (lhs rhs : tcp_socket) : bool :=
  bool_decide (m_fd lhs = m_fd rhs) && bool_decide (m_type lhs = m_type rhs).

End tcp_socket.

(** ** The collaborators of tcp_server *)

(** Modelled from the spec: the Client connection ([tcp_client]), whose
    source file is not among the sources.  The spec gives its fields, its
    states, and [disconnect()]: a no-op on a connection that is already
    disconnected; otherwise it untracks the descriptor from the Reactor,
    closes the Socket, moves to [Disconnected] and invokes the
    disconnection notifier. *)
Inductive connection_state :=
  Disconnected | Connecting | Connected | Disconnecting.

#[global] Instance connection_state_eq_dec : EqDecision connection_state.
Proof. solve_decision. Defined.

(** The only notifier the server installs:
    [std::bind(&tcp_server::on_client_disconnected, this, client)]. *)
Inductive disconnection_handler :=
  | server_on_client_disconnected (client : handle).

Record tcp_client := {
  socket : tcp_socket;
  state : connection_state;
  pending_read : option nat;
  pending_write : option (list byte);
  disconnection_notifier : option disconnection_handler
}.

Definition set_socket (sk : tcp_socket) (c : tcp_client) : tcp_client :=
  {| socket := sk; state := state c; pending_read := pending_read c;
     pending_write := pending_write c;
     disconnection_notifier := disconnection_notifier c |}.

Definition set_state (st : connection_state) (c : tcp_client) : tcp_client :=
  {| socket := socket c; state := st; pending_read := pending_read c;
     pending_write := pending_write c;
     disconnection_notifier := disconnection_notifier c |}.

Definition set_disconnection_notifier (h : option disconnection_handler)
    (c : tcp_client) : tcp_client :=
  {| socket := socket c; state := state c; pending_read := pending_read c;
     pending_write := pending_write c; disconnection_notifier := h |}.

(** Modelled from the spec: the Reactor ([io_service]), whose source file is
    not among the sources: a registry keyed by descriptor, each entry with
    an optional read and an optional write callback. *)
Inductive io_callback :=
  | server_on_read_available.

Record io_entry := {
  read_callback : option io_callback;
  write_callback : option io_callback
}.

(** ** tcp_server *)

Record tcp_server := {
  m_socket : tcp_socket;
  m_is_running : bool;
  m_clients : list handle;
  m_clients_mtx : bool;
  m_on_new_connection_callback : option (tcp_client → bool)
}.

(** [tcp_server::tcp_server(void)]: the object it builds. *)
Definition tcp_server_new : tcp_server :=
  {| m_socket := tcp_socket_new; m_is_running := false; m_clients := [];
     m_clients_mtx := false; m_on_new_connection_callback := None |}.

(** The constructor as it runs: the member [m_socket] is built first, then
    the body writes its log line. *)
Definition tcp_server_ctor {St} : M St tcp_server :=
  sk ← tcp_socket_ctor;
  log debug "create tcp_server" ;;
  mret {| m_socket := sk; m_is_running := false; m_clients := [];
          m_clients_mtx := false; m_on_new_connection_callback := None |}.

(** The server, the [tcp_client] objects its shared pointers refer to, and
    the registry of the io service it shares ([m_io_service]). *)
Record world := {
  server : tcp_server;
  clients : gmap handle tcp_client;
  io_service : gmap fd_t io_entry
}.

Definition set_server (f : tcp_server → tcp_server) (w : world) : world :=
  {| server := f (server w); clients := clients w;
     io_service := io_service w |}.

Definition set_clients (f : gmap handle tcp_client → gmap handle tcp_client)
    (w : world) : world :=
  {| server := server w; clients := f (clients w);
     io_service := io_service w |}.

Definition set_io_service (f : gmap fd_t io_entry → gmap fd_t io_entry)
    (w : world) : world :=
  {| server := server w; clients := clients w;
     io_service := f (io_service w) |}.

Definition set_m_socket (sk : tcp_socket) (s : tcp_server) : tcp_server :=
  {| m_socket := sk; m_is_running := m_is_running s;
     m_clients := m_clients s; m_clients_mtx := m_clients_mtx s;
     m_on_new_connection_callback := m_on_new_connection_callback s |}.

Definition set_m_is_running (b : bool) (s : tcp_server) : tcp_server :=
  {| m_socket := m_socket s; m_is_running := b;
     m_clients := m_clients s; m_clients_mtx := m_clients_mtx s;
     m_on_new_connection_callback := m_on_new_connection_callback s |}.

Definition set_m_clients (l : list handle) (s : tcp_server) : tcp_server :=
  {| m_socket := m_socket s; m_is_running := m_is_running s;
     m_clients := l; m_clients_mtx := m_clients_mtx s;
     m_on_new_connection_callback := m_on_new_connection_callback s |}.

Definition set_m_clients_mtx (b : bool) (s : tcp_server) : tcp_server :=
  {| m_socket := m_socket s; m_is_running := m_is_running s;
     m_clients := m_clients s; m_clients_mtx := b;
     m_on_new_connection_callback := m_on_new_connection_callback s |}.

Definition set_m_on_new_connection_callback (cb : option (tcp_client → bool))
    (s : tcp_server) : tcp_server :=
  {| m_socket := m_socket s; m_is_running := m_is_running s;
     m_clients := m_clients s; m_clients_mtx := m_clients_mtx s;
     m_on_new_connection_callback := cb |}.

(** [std::lock_guard<std::mutex> lock(m_clients_mtx)] over the rest of the
    scope: a second acquisition of the plain mutex never returns; the guard
    releases on every way out of the scope. *)
Definition lock_guard {A} (body : M world A) : M world A :=
  λ w t,
    if m_clients_mtx (server w) then (Deadlock, w, t) else
    let '(r, w', t') :=
      body (set_server (set_m_clients_mtx true) w) (t ++ [EvLock]) in
    match r with
    | Deadlock => (Deadlock, w', t')
    | _ => (r, set_server (set_m_clients_mtx false) w', t' ++ [EvUnlock])
    end.

Section tcp_server.
Variable P : platform.

(** A method of the member [m_socket]. *)
Definition on_m_socket {A} (m : M tcp_socket A) : M world A :=
  zoom (λ w, m_socket (server w)) (λ sk, set_server (set_m_socket sk)) m.

(** Modelled from the spec: [track(descriptor)] adds an entry,
    [set_read_callback] replaces the read callback of a tracked
    descriptor, [untrack(descriptor)] removes the entry. *)
Definition track (sk : tcp_socket) : M world unit :=
  modify (set_io_service
    (<[m_fd sk := {| read_callback := None; write_callback := None |}]>)).

Definition set_rd_callback (sk : tcp_socket) (cb : io_callback)
    : M world unit :=
  modify (set_io_service
    (alter (λ e, {| read_callback := Some cb;
                    write_callback := write_callback e |}) (m_fd sk))).

Definition untrack (sk : tcp_socket) : M world unit :=
  modify (set_io_service (delete (m_fd sk))).

Definition is_running : M world bool := gets (λ w, m_is_running (server w)).

(** [tcp_server::on_client_disconnected] *)
Definition on_client_disconnected (client : handle) : M world unit :=
  running ← is_running;
  if negb running then mret () else
  log debug "handle server's client disconnection" ;;
  lock_guard (
    cs ← gets (λ w, m_clients (server w));
    match list_find (λ c, c = client) cs with
    | Some (it, _) =>
        emit (EvClients (clients_erase client)) ;;
        modify (set_server (set_m_clients (delete it cs)))
    | None => mret ()
    end).

(** Modelled from the spec: [tcp_client::disconnect()]. *)
Definition disconnect (client : handle) : M world unit :=
  o ← gets (λ w, clients w !! client);
  match o with
  | None => mret ()
  | Some c =>
      if decide (state c = Disconnected) then mret () else
      untrack (socket c) ;;
      zoom (λ _, socket c)
           (λ sk, set_clients (<[client := set_socket sk c]>))
           (close P) ;;
      modify (set_clients (alter (set_state Disconnected) client)) ;;
      match disconnection_notifier c with
      | Some (server_on_client_disconnected h) => on_client_disconnected h
      | None => mret ()
      end
  end.

(** Modelled from the spec: a Client connection built on an accepted
    Socket is [Connected], with nothing pending and no notifier; it takes
    the socket over through the move constructor of tcp_socket;
    [std::make_shared] gives it a handle no live object has. *)
Definition make_shared_tcp_client (sk : tcp_socket) : M world handle :=
  h ← gets (λ w, fresh (dom (clients w)));
  moved ← tcp_socket_move_ctor sk;
  modify (set_clients
    (<[h := {| socket := moved.1; state := Connected;
               pending_read := None; pending_write := None;
               disconnection_notifier := None |}]>)) ;;
  mret h.

(** Modelled from the spec: [tcp_client::set_on_disconnection_handler]
    stores the single disconnection notifier of the connection. *)
Definition set_on_disconnection_handler (client : handle)
    (h : disconnection_handler) : M world unit :=
  modify (set_clients (alter (set_disconnection_notifier (Some h)) client)).

(** Modelled from the spec: when the last shared pointer to a Client
    connection goes away the connection is torn down (its descriptor is
    closed, not leaked) and the object is gone. *)
Definition release_tcp_client (client : handle) : M world unit :=
  disconnect client ;;
  modify (set_clients (delete client)).

(** [tcp_server::start] *)
Definition start (host : string) (port : Z)
    (callback : option (tcp_client → bool)) : M world unit :=
  running ← is_running;
  if (running : bool) then throw warn "tcp_server is already running" else
  on_m_socket (bind P host port) ;;
  on_m_socket (listen P (TACOPIE_CONNECTION_QUEUE_SIZE P)) ;;
  sk ← gets (λ w, m_socket (server w));
  track sk ;;
  set_rd_callback sk server_on_read_available ;;
  modify (set_server (set_m_on_new_connection_callback callback)) ;;
  modify (set_server (set_m_is_running true)) ;;
  log info "tcp_server running".

(** [tcp_server::stop] *)
Definition stop : M world unit :=
  running ← is_running;
  if negb running then mret () else
  modify (set_server (set_m_is_running false)) ;;
  sk ← gets (λ w, m_socket (server w));
  untrack sk ;;
  on_m_socket (close P) ;;
  lock_guard (
    cs ← gets (λ w, m_clients (server w));
    for_each disconnect cs ;;
    emit (EvClients clients_clear) ;;
    modify (set_server (set_m_clients [])) ;;
    log info "tcp_server stopped").

(** [tcp_server::~tcp_server] *)
Definition tcp_server_destroy : M world unit :=
  log debug "destroy tcp_server" ;;
  stop.

(** [tcp_server::on_read_available]; the descriptor argument is unused.
    The local [client] is the only owner of a dismissed connection, so
    leaving the scope releases it. *)
Definition on_read_available (_ : fd_t) : M world unit :=
  try_catch
    ((log info "tcp_server received new connection" : M world unit) ;;
     sk ← on_m_socket (accept P);
     client ← make_shared_tcp_client sk;
     cb ← gets (λ w, m_on_new_connection_callback (server w));
     c ← gets (λ w, clients w !! client);
     if match cb, c with
        | Some f, Some c => f c
        | _, _ => true
        end
     then
       log info "tcp_server accepted new connection" ;;
       set_on_disconnection_handler client
         (server_on_client_disconnected client) ;;
       emit (EvClients (clients_push_back client)) ;;
       modify (λ w, set_server (set_m_clients (m_clients (server w) ++ [client])) w)
     else
       log info "tcp_server dismissed new connection" ;;
       release_tcp_client client)
    ((log warn "accept operation failure" : M world unit) ;;
     stop).

Definition get_socket : M world tcp_socket := gets (λ w, m_socket (server w)).
Definition get_clients : M world (list handle) :=
  gets (λ w, m_clients (server w)).

(** [tcp_server::operator==] *)
Definition tcp_server_eqb (lhs rhs : tcp_server) : bool :=
  tcp_socket_eqb (m_socket lhs) (m_socket rhs).

End tcp_server.

(** ** Reading traces *)

(** The lock discipline on [m_clients]: every mutation of the list happens
    between an acquisition of [m_clients_mtx] and its release. *)
Fixpoint guarded_from (held : bool) (t : list event) : bool :=
  match t with
  | [] => true
  | EvLock :: t' => guarded_from true t'
  | EvUnlock :: t' => guarded_from false t'
  | EvClients _ :: t' => held && guarded_from held t'
  | _ :: t' => guarded_from held t'
  end.

Definition guarded (t : list event) : bool := guarded_from false t.

Definition is_close (e : event) : bool :=
  match e with EvSys (sys_close _) _ => true | _ => false end.

Definition is_close_of (fd : fd_t) (e : event) : bool :=
  match e with
  | EvSys (sys_close fd') _ => bool_decide (fd' = fd)
  | _ => false
  end.

Definition is_accept (e : event) : bool :=
  match e with EvSys (sys_accept _) _ => true | _ => false end.

Definition is_report (e : event) : bool :=
  match e with
  | EvLog warn _ | EvLog error _ => true
  | _ => false
  end.

Fixpoint count (p : event → bool) (t : list event) : nat :=
  match t with
  | [] => 0%nat
  | e :: t' => ((if p e then 1 else 0) + count p t')%nat
  end.

(** ** A concrete platform for running the code

    A little-endian host on which the calls in [fails] answer -1 and the
    others succeed; [::socket] and [::accept] hand out a descriptor not used
    before; [::recv] answers [rd] and stores the letter a; the peer of every
    accepted connection is 10.0.0.1, port 8080. *)
Definition scripted (fails : syscall → bool) (rd : Z) : platform :=
  {| sys_ret := λ t c,
       if fails c then -1 else
       match c with
       | sys_socket | sys_accept _ => 3 + Z.of_nat (length t)
       | sys_recv _ _ => rd
       | sys_send _ _ n => Z.of_nat n
       | _ => 0
       end;
     recv_payload := λ _ _ _, x61;
     accept_peer := λ _ _,
       {| sin_family := AF_INET; sin_port := 36895; sin_addr := 16777226 |};
     hostent := λ _ _, Some 16777343;
     little_endian := true;
     TACOPIE_CONNECTION_QUEUE_SIZE := 1024 |}.

Definition no_failure : syscall → bool := λ _, false.

Definition accept_fails : syscall → bool :=
  λ c, match c with sys_accept _ => true | _ => false end.

Definition bind_fails : syscall → bool :=
  λ c, match c with sys_bind _ _ => true | _ => false end.

(** The events a call added to the trace it was given. *)
Definition added (t t' : list event) : list event := drop (length t) t'.

(** ** The public operations of tcp_socket that change the object

    ([get_host], [get_port], [get_type], [get_fd] and the comparison
    operators are [const].) *)
Inductive socket_op :=
  | op_recv (size_to_read : nat)
  | op_send (data : list byte) (size_to_write : nat)
  | op_connect (host : string) (port : Z)
  | op_bind (host : string) (port : Z)
  | op_listen (max_connection_queue : nat)
  | op_accept
  | op_close
  | op_set_type (t : type).

Definition run_op (P : platform) (op : socket_op) : M tcp_socket unit :=
  match op with
  | op_recv n => recv P n ;; mret ()
  | op_send d n => send P d n ;; mret ()
  | op_connect h p => connect P h p
  | op_bind h p => bind P h p
  | op_listen n => listen P n
  | op_accept => accept P ;; mret ()
  | op_close => close P
  | op_set_type t => set_type t
  end.

(** The argument each operation hands to [check_or_set_type], if it calls
    it. *)
Definition required_type (op : socket_op) : option type :=
  match op with
  | op_recv _ | op_send _ _ | op_connect _ _ => Some CLIENT
  | op_bind _ _ | op_listen _ | op_accept => Some SERVER
  | op_close | op_set_type _ => None
  end.

Definition invalid_operation : tacopie_error :=
  {| err_level := error;
     what := "trying to perform invalid operation on socket" |}.

Definition recv_failure : tacopie_error :=
  {| err_level := error; what := "recv() failure" |}.

Definition closed_by_remote_host : tacopie_error :=
  {| err_level := warn;
     what := "nothing to read, socket has been closed by remote host" |}.

(** The events of a teardown: the log line and the system call of
    [tcp_socket::close]. *)
Definition teardown_event (e : event) : bool :=
  match e with
  | EvLog debug "close socket" | EvSys (sys_close _) _ => true
  | _ => false
  end.

(** The client objects after the connections in [hs] have been
    disconnected: no object appears or goes away, the ones not in [hs] and
    the ones already disconnected are as they were, the ones in [hs] are
    [Disconnected], with their descriptor unset if this is when they were
    closed. *)
Definition disconnected_all (hs : list handle)
    (cl cl' : gmap handle tcp_client) : Prop :=
  (∀ h, cl !! h = None → cl' !! h = None) ∧
  (∀ h c, cl !! h = Some c →
     ∃ c', cl' !! h = Some c' ∧
       (state c = Disconnected → c' = c) ∧
       (h ∉ hs → c' = c) ∧
       (h ∈ hs → state c' = Disconnected ∧
                 (state c ≠ Disconnected → m_fd (socket c') = -1))).

(** A registry from which entries were only removed. *)
Definition untracked_only (io io' : gmap fd_t io_entry) : Prop :=
  ∀ fd, io !! fd = None → io' !! fd = None.

(** ** Concrete sockets, servers and runs *)

(** A connected client socket and a listening socket, with the trace of the
    [::socket] call that made the latter. *)
Definition client_socket : tcp_socket := tcp_socket_from 5 "" 0 CLIENT.
Definition listening_socket : tcp_socket := tcp_socket_from 3 "" 0 SERVER.
Definition listening_trace : list event := [EvSys sys_socket 3].

Definition world_new : world :=
  {| server := tcp_server_new; clients := ∅; io_service := ∅ |}.

Definition reject_all : tcp_client → bool := λ _, false.

(** A server started on localhost:8080 with the admission callback [cb]. *)
Definition started (cb : option (tcp_client → bool))
    : outcome unit * world * list event :=
  start (scripted no_failure 0) "localhost" 8080 cb world_new [].

(** The same server after one readiness event on its listening socket. *)
Definition one_event (cb : option (tcp_client → bool))
    : outcome unit * world * list event :=
  on_read_available (scripted no_failure 0) 3 (started cb).1.2 (started cb).2.

(** ** Further operations and vocabulary *)

(** [tcp_socket::operator!=] *)
Definition tcp_socket_neqb (lhs rhs : tcp_socket) : bool :=
  negb (tcp_socket_eqb lhs rhs).

(** [tcp_server::operator!=] *)
Definition tcp_server_neqb (lhs rhs : tcp_server) : bool :=
  negb (tcp_server_eqb lhs rhs).

Definition socket_failure : tacopie_error :=
  {| err_level := error;
     what := "tcp_socket::create_socket_if_necessary: socket() failure" |}.

Definition send_failure : tacopie_error :=
  {| err_level := error; what := "send() failure" |}.

Definition resolver_failure : tacopie_error :=
  {| err_level := error; what := "gethostbyname() failure" |}.

Definition is_socket_call (e : event) : bool :=
  match e with EvSys sys_socket _ => true | _ => false end.

(** The operations of tcp_server that change the object, the destructor
    included. *)
Inductive server_op :=
  | sop_start (host : string) (port : Z)
      (callback : option (tcp_client → bool))
  | sop_stop
  | sop_on_read_available (fd : fd_t)
  | sop_on_client_disconnected (client : handle)
  | sop_destroy.

Definition run_server_op (P : platform) (op : server_op) : M world unit :=
  match op with
  | sop_start host port callback => start P host port callback
  | sop_stop => stop P
  | sop_on_read_available fd => on_read_available P fd
  | sop_on_client_disconnected client => on_client_disconnected client
  | sop_destroy => tcp_server_destroy P
  end.

(** The client collection is in order: no connection is held twice, and
    every connection held is a live object whose disconnection notifier is
    the server's removal path for that same connection. *)
Definition collection_ok (w : world) : Prop :=
  NoDup (m_clients (server w)) ∧
  ∀ h, h ∈ m_clients (server w) →
    ∃ c, clients w !! h = Some c ∧
         disconnection_notifier c = Some (server_on_client_disconnected h).

(** The events the lock discipline looks at: the mutex and the mutations
    of the client list. *)
Definition touches_collection (e : event) : bool :=
  match e with
  | EvLock | EvUnlock | EvClients _ => true
  | _ => false
  end.

Definition listen_fails : syscall → bool :=
  λ c, match c with sys_listen _ _ => true | _ => false end.

Definition connect_fails : syscall → bool :=
  λ c, match c with sys_connect _ _ => true | _ => false end.

Definition all_fail : syscall → bool := λ _, true.

(** * Proofs *)

Ltac unfold_M :=
  unfold mbind, mret, M_mbind, M_mret, M_bind, M_ret, throw, gets, modify,
    log, emit, sys, zoom, try_catch in *.

Lemma added_app (t evs : list event) : added t (t ++ evs) = evs.
Proof. unfold added. apply drop_app_length. Qed.

Lemma added_app2 (t : list event) e evs : added t ((t ++ [e]) ++ evs) = e :: evs.
Proof. rewrite <- app_assoc. apply added_app. Qed.

Lemma count_app p (t1 t2 : list event) :
  count p (t1 ++ t2) = (count p t1 + count p t2)%nat.
Proof. induction t1 as [|e t1 IH]; cbn; [done|]. rewrite IH. lia. Qed.

Lemma count_Forall_not p (t : list event) :
  Forall (λ e, p e = false) t → count p t = 0%nat.
Proof.
  induction 1 as [|e t He _ IH]; [done|]. cbn. by rewrite He, IH.
Qed.

(** ** tcp_socket::close *)

(** What [close] does, in one equation. *)
Lemma close_run P s t :
  close P s t =
    (Return (), set_m_type UNKNOWN (set_m_fd (-1) s),
     t ++ (if decide (m_fd s ≠ -1)
           then [EvLog debug "close socket";
                 EvSys (sys_close (m_fd s))
                   (sys_ret P (t ++ [EvLog debug "close socket"])
                      (sys_close (m_fd s)))]
           else [])).
Proof.
  unfold close. unfold_M. cbn.
  repeat (case_decide; cbn); try done.
  - by rewrite <- app_assoc.
  - by rewrite app_nil_r.
Qed.

(** C7. [close()] is idempotent: it always returns, leaves the descriptor
    unset (-1) and the type [UNKNOWN]; a second [close()] changes neither
    the object nor the trace, so it makes no system call; together the two
    calls make exactly one [::close] when a descriptor was held and none
    otherwise. *)
Theorem close_idempotent (P : platform) (s : tcp_socket) (t : list event) :
  let '(r1, s1, t1) := close P s t in
  let '(r2, s2, t2) := close P s1 t1 in
  r1 = Return () ∧ m_fd s1 = -1 ∧ m_type s1 = UNKNOWN ∧
  r2 = Return () ∧ s2 = s1 ∧ t2 = t1 ∧
  count is_close (added t t2) = (if decide (m_fd s ≠ -1) then 1%nat else 0%nat) ∧
  count (is_close_of (m_fd s)) (added t t2) =
    (if decide (m_fd s ≠ -1) then 1%nat else 0%nat).
Proof.
  rewrite !close_run. cbn.
  rewrite app_nil_r, added_app.
  repeat split; try done.
  - by case_decide.
  - case_decide; [|done]. cbn. by rewrite bool_decide_true.
Qed.

(** ** tcp_socket::recv *)

Lemma added_same (t : list event) : added t t = [].
Proof. unfold added. apply drop_all. Qed.

Ltac unfold_socket :=
  unfold recv, send, connect, bind, listen, accept, set_type,
    create_socket_if_necessary, check_or_set_type, sys_recv_into,
    sys_accept_from, gethostbyname, tcp_socket_ctor_from in *;
  unfold_M.

Ltac trace_simpl :=
  repeat first
    [ rewrite added_same in *
    | rewrite added_app in *
    | rewrite added_app2 in *
    | rewrite last_snoc in * ].

(** C2. Whenever a call of [recv] gets as far as [::recv], the value [n]
    that [::recv] returned decides the outcome, and the three outcomes are
    told apart: the call throws the error-level "recv() failure" exactly
    when [n] is -1, it throws the warn-level "closed by remote host"
    condition exactly when [n] is 0, and it returns the buffer in every
    other case (so whenever [n] is positive); the two thrown values
    differ.  What is returned for a positive [n] is the data: a buffer of
    [size_to_read] bytes that holds, below [n], the bytes the system stored
    and, from [n] on, zero. *)
Theorem recv_outcomes (P : platform) (size_to_read : nat) (s : tcp_socket)
    (t : list event) :
  let '(r, s', t') := recv P size_to_read s t in
  ∀ n : Z,
    last (added t t') = Some (EvSys (sys_recv (m_fd s') size_to_read) n) →
    (r = Throw recv_failure ↔ n = -1) ∧
    (r = Throw closed_by_remote_host ↔ n = 0) ∧
    ((∃ data, r = Return data) ↔ n ≠ -1 ∧ n ≠ 0) ∧
    (0 < n → ∃ data, r = Return data) ∧
    closed_by_remote_host ≠ recv_failure ∧
    err_level closed_by_remote_host = warn ∧
    err_level recv_failure = error ∧
    (0 < n →
       ∃ data, r = Return data ∧ length data = size_to_read ∧
         ∀ t0, t' = t0 ++ [EvSys (sys_recv (m_fd s') size_to_read) n] →
           ∀ i : nat, (i < size_to_read)%nat →
             data !! i =
               Some (if bool_decide (Z.of_nat i < n)
                     then recv_payload P t0 (m_fd s') i else x00)).
Proof.
  unfold_socket. cbn.
  repeat (case_decide; cbn); intros n Hn; trace_simpl; cbn in Hn;
    try discriminate Hn.
  all: try (rewrite <- app_assoc in Hn; trace_simpl; cbn in Hn).
  all: inversion Hn; subst; clear Hn.
  all: unfold recv_failure, closed_by_remote_host.
  all: repeat split; intros; try done; try lia; try (by eexists).
  all: try (eexists; split; [reflexivity|];
            split; [by rewrite length_imap, length_replicate|];
            intros t0 Ht0 i Hi; apply app_inj_tail in Ht0 as [<- _];
            by rewrite list_lookup_imap, lookup_replicate_2 by done).
  all: by match goal with H : ∃ _, _ |- _ => destruct H end.
Qed.

(** The buffer [::recv] leaves behind: as long as the one handed in, and
    untouched from the position of the returned count on. *)
Lemma recv_into_buffer (f : nat → byte) (n : Z) (size : nat) :
  let data :=
    imap (λ i b, if bool_decide (Z.of_nat i < n) then f i else b)
      (replicate size x00) in
  length data = size ∧
  ∀ i : nat, n ≤ Z.of_nat i → (i < size)%nat → data !! i = Some x00.
Proof.
  cbn. split.
  - by rewrite length_imap, length_replicate.
  - intros i Hi Hlt.
    rewrite list_lookup_imap, lookup_replicate_2 by done. cbn.
    by rewrite bool_decide_false by lia.
Qed.

(** C10. When [recv(size_to_read)] returns a buffer after [::recv] reported
    [n] bytes, the buffer has exactly [size_to_read] elements, whatever [n]
    is, and every position from [n] on holds the zero byte it was
    initialised with. *)
Theorem recv_buffer_length (P : platform) (size_to_read : nat)
    (s : tcp_socket) (t : list event) :
  let '(r, s', t') := recv P size_to_read s t in
  ∀ (data : list byte) (n : Z),
    r = Return data →
    last (added t t') = Some (EvSys (sys_recv (m_fd s') size_to_read) n) →
    length data = size_to_read ∧
    ∀ i : nat, n ≤ Z.of_nat i → (i < size_to_read)%nat →
      data !! i = Some x00.
Proof.
  unfold_socket. cbn.
  repeat (case_decide; cbn); intros data n Hr Hn; try discriminate Hr.
  all: trace_simpl; cbn in Hn.
  all: try (rewrite <- app_assoc in Hn; trace_simpl; cbn in Hn).
  all: inversion Hn; subst n; clear Hn.
  all: inversion Hr; subst data; clear Hr.
  all: apply recv_into_buffer.
Qed.

(** ** The type of a tcp_socket *)

Lemma app_ne_self (t evs : list event) : evs ≠ [] → t ++ evs ≠ t.
Proof.
  intros Hne Heq. apply (f_equal length) in Heq. rewrite length_app in Heq.
  destruct evs; [done|]. cbn in Heq. lia.
Qed.

(** C1 (amended). On a socket that holds a descriptor and whose type is
    [CLIENT] or [SERVER], each of [recv], [send], [connect], [bind],
    [listen] and [accept] either asks for that same type and proceeds (it
    is not refused with the "invalid operation" error and goes on to its
    system call) leaving the type in place, whatever else the call does,
    or throws the "invalid operation" error with the object and the trace
    untouched; [close] sets the type to [UNKNOWN]; [set_type] stores the
    type it is given, whatever the type was. *)
Theorem type_fixed_by_typed_operations (P : platform) (op : socket_op)
    (s : tcp_socket) (t : list event) :
  m_fd s ≠ -1 → m_type s ≠ UNKNOWN →
  let '(r, s', t') := run_op P op s t in
  match required_type op with
  | Some ty =>
      (m_type s = ty ∧ m_type s' = m_type s ∧
       r ≠ Throw invalid_operation ∧ t' ≠ t) ∨
      (m_type s ≠ ty ∧ r = Throw invalid_operation ∧ s' = s ∧ t' = t)
  | None =>
      (op = op_close → m_type s' = UNKNOWN) ∧
      (∀ ty, op = op_set_type ty → r = Return () ∧ m_type s' = ty)
  end.
Proof.
  intros Hfd Hty.
  destruct s as [fd hst prt [| |]]; cbn in Hfd, Hty; [done| |].
  all: destruct op; cbn [run_op required_type]; try rewrite close_run.
  all: unfold_socket; cbn.
  all: repeat (case_decide; cbn); try tauto.
  all: try (destruct (hostent P t host); cbn; repeat (case_decide; cbn)).
  all: try (left; do 3 (split; [done|]);
            rewrite <- ?app_assoc; by apply app_ne_self).
  all: try (by right).
  all: try match goal with H : ¬ (_ ∧ _) |- _ => by destruct H end.
  all: split; [done | by intros ty [= ->]].
Qed.

(** ** Teardown of client connections while the server is not running *)

Ltac unfold_server :=
  unfold start, stop, on_read_available, on_client_disconnected, disconnect,
    release_tcp_client, make_shared_tcp_client, set_on_disconnection_handler,
    tcp_server_destroy, track, untrack, set_rd_callback, is_running,
    on_m_socket, lock_guard in *;
  unfold_M.

Lemma on_client_disconnected_not_running h w t :
  m_is_running (server w) = false →
  on_client_disconnected h w t = (Return (), w, t).
Proof. intros Hr. unfold_server. cbn. by rewrite Hr. Qed.

Lemma disconnected_all_refl hs cl : 
  (∀ h c, h ∈ hs → cl !! h = Some c → state c = Disconnected) →
  disconnected_all hs cl cl.
Proof.
  intros Hd. split; [done|]. intros h c Hc. exists c.
  do 3 (split; [done|]). intros Hin.
  split; [eauto|]. intros Hne. destruct Hne. eauto.
Qed.

Lemma untracked_only_delete fd (io : gmap fd_t io_entry) :
  untracked_only io (delete fd io).
Proof.
  intros fd' Hn. destruct (decide (fd = fd')) as [->|Hne].
  - apply lookup_delete_eq.
  - by rewrite lookup_delete_ne.
Qed.

Lemma disconnect_not_running P h w t :
  m_is_running (server w) = false →
  ∃ w' evs,
    disconnect P h w t = (Return (), w', t ++ evs) ∧
    Forall (λ e, teardown_event e = true) evs ∧
    server w' = server w ∧
    untracked_only (io_service w) (io_service w') ∧
    disconnected_all [h] (clients w) (clients w').
Proof.
  intros Hr. unfold disconnect. unfold_M. cbn.
  destruct (clients w !! h) as [c|] eqn:Hc.
  2:{ exists w, []. rewrite app_nil_r.
      split; [done|]. split; [constructor|]. split; [done|].
      split; [by intros ?|].
      apply disconnected_all_refl. intros h' c' ->%list_elem_of_singleton.
      congruence. }
  case_decide as Hst.
  { exists w, []. rewrite app_nil_r.
    split; [done|]. split; [constructor|]. split; [done|].
    split; [by intros ?|].
    apply disconnected_all_refl. intros h' c' ->%list_elem_of_singleton.
    congruence. }
  unfold untrack. unfold_M. cbn. rewrite close_run. cbn.
  match goal with
  | |- context [match disconnection_notifier c with _ => _ end ?w0 ?t0] =>
      assert (∀ k : M world unit,
                (k = mret () ∨ ∃ h', k = on_client_disconnected h') →
                k w0 t0 = (Return (), w0, t0)) as Hk
  end.
  { intros k [->|[h' ->]]; [done|].
    by apply on_client_disconnected_not_running. }
  rewrite Hk by (destruct (disconnection_notifier c) as [[h']|]; eauto).
  eexists _, _. split; [reflexivity|].
  split; [by case_decide; repeat constructor|].
  split; [done|]. split; [apply untracked_only_delete|]. cbn.
  split.
  - intros h' Hn. destruct (decide (h = h')) as [->|Hne]; [congruence|].
    by rewrite lookup_alter_ne, lookup_insert_ne.
  - intros h' c0 Hc0. destruct (decide (h = h')) as [->|Hne].
    + rewrite lookup_alter_eq, lookup_insert_eq. cbn.
      eexists. split; [done|]. assert (c0 = c) as -> by congruence.
      split; [by intros ?|].
      split; [intros Hin; destruct Hin; by apply list_elem_of_singleton|].
      by intros _.
    + rewrite lookup_alter_ne, lookup_insert_ne by done.
      exists c0. do 3 (split; [done|]).
      intros Hin%list_elem_of_singleton. congruence.
Qed.

Lemma untracked_only_trans (io1 io2 io3 : gmap fd_t io_entry) :
  untracked_only io1 io2 → untracked_only io2 io3 → untracked_only io1 io3.
Proof. intros H12 H23 fd Hn. by apply H23, H12. Qed.

Lemma disconnected_all_cons h hs (cl1 cl2 cl3 : gmap handle tcp_client) :
  disconnected_all [h] cl1 cl2 → disconnected_all hs cl2 cl3 →
  disconnected_all (h :: hs) cl1 cl3.
Proof.
  intros [Hn1 Hs1] [Hn2 Hs2]. split; [by intros h' ?; apply Hn2, Hn1|].
  intros h' c Hc.
  destruct (Hs1 h' c Hc) as (c1 & Hc1 & Hd1 & Hout1 & Hin1).
  destruct (Hs2 h' c1 Hc1) as (c2 & Hc2 & Hd2 & Hout2 & Hin2).
  exists c2. split; [done|].
  split; [by intros Hd; rewrite Hd2; rewrite Hd1|].
  split.
  - intros [Hne Hni]%not_elem_of_cons.
    rewrite Hout2, Hout1; [done| |done].
    by intros ->%list_elem_of_singleton.
  - intros Hin. destruct (decide (h' = h)) as [->|Hne].
    + destruct Hin1 as [Hst1 Hfd1]; [by apply list_elem_of_singleton|].
      rewrite (Hd2 Hst1). by split.
    + apply elem_of_cons in Hin as [?|Hin]; [done|].
      rewrite (Hout1 (λ Hx, Hne (proj1 (list_elem_of_singleton _ _) Hx))) in *.
      by apply Hin2.
Qed.

Lemma for_each_disconnect_not_running P hs : ∀ w t,
  m_is_running (server w) = false →
  ∃ w' evs,
    for_each (disconnect P) hs w t = (Return (), w', t ++ evs) ∧
    Forall (λ e, teardown_event e = true) evs ∧
    server w' = server w ∧
    untracked_only (io_service w) (io_service w') ∧
    disconnected_all hs (clients w) (clients w').
Proof.
  induction hs as [|h hs IH]; intros w t Hr.
  - exists w, []. rewrite app_nil_r. cbn.
    split; [done|]. split; [constructor|]. split; [done|].
    split; [by intros ?|].
    apply disconnected_all_refl. by intros h c ?%elem_of_nil.
  - destruct (disconnect_not_running P h w t Hr)
      as (w1 & evs1 & Hrun1 & Hev1 & Hsrv1 & Hio1 & Hcl1).
    destruct (IH w1 (t ++ evs1)) as (w2 & evs2 & Hrun2 & Hev2 & Hsrv2 & Hio2 & Hcl2);
      [by rewrite Hsrv1|].
    exists w2, (evs1 ++ evs2).
    split.
    { cbn. unfold_M. rewrite Hrun1, Hrun2. by rewrite app_assoc. }
    split; [by apply Forall_app|].
    split; [congruence|].
    split; [by eapply untracked_only_trans|].
    by eapply disconnected_all_cons.
Qed.

(** ** tcp_server::stop *)

Lemma stop_not_running P w t :
  m_is_running (server w) = false → stop P w t = (Return (), w, t).
Proof. intros Hr. unfold_server. cbn. by rewrite Hr. Qed.

(** [stop] on a running server, in full: the trace it adds and the state
    it leaves. *)
Lemma stop_running P w t :
  m_is_running (server w) = true → m_clients_mtx (server w) = false →
  ∃ w' closing evs,
    stop P w t =
      (Return (), w',
       t ++ closing ++ [EvLock] ++ evs ++
         [EvClients clients_clear; EvLog info "tcp_server stopped";
          EvUnlock]) ∧
    Forall (λ e, teardown_event e = true) closing ∧
    Forall (λ e, teardown_event e = true) evs ∧
    (m_fd (m_socket (server w)) ≠ -1 →
       ∃ ret, EvSys (sys_close (m_fd (m_socket (server w)))) ret ∈ closing) ∧
    server w' =
      {| m_socket := set_m_type UNKNOWN (set_m_fd (-1) (m_socket (server w)));
         m_is_running := false; m_clients := []; m_clients_mtx := false;
         m_on_new_connection_callback :=
           m_on_new_connection_callback (server w) |} ∧
    io_service w' !! m_fd (m_socket (server w)) = None ∧
    untracked_only (io_service w) (io_service w') ∧
    disconnected_all (m_clients (server w)) (clients w) (clients w').
Proof.
  intros Hr Hm. unfold stop, is_running, untrack, on_m_socket, lock_guard.
  unfold_M. cbn. rewrite Hr. cbn. rewrite close_run. cbn. rewrite Hm.
  match goal with
  | |- context [for_each (disconnect P) ?hs ?w0 ?t0] =>
      destruct (for_each_disconnect_not_running P hs w0 t0)
        as (w1 & evs & Hrun & Hev & Hsrv & Hio & Hcl); [done|]
  end.
  rewrite Hrun. cbn. rewrite <- !app_assoc. cbn.
  eexists _, _, evs. split; [reflexivity|].
  split; [by case_decide; repeat constructor|].
  split; [done|].
  split.
  { intros Hfd. case_decide; [|done]. eexists. apply elem_of_cons. right.
    apply list_elem_of_singleton. reflexivity. }
  cbn. rewrite Hsrv. cbn. split; [done|].
  split; [apply Hio; cbn; apply lookup_delete_eq|].
  split; [|done].
  eapply untracked_only_trans; [|exact Hio]. apply untracked_only_delete.
Qed.

(** C4. [stop()] on a server that is not running returns at once and
    changes nothing.  On a running server (whose client mutex is free) it
    returns with the server not running, the listening socket untracked and
    closed before the mutex is taken, every client connection of the
    collection disconnected under the mutex, and the collection empty.
    After that, a second [stop()] changes neither the state nor the trace,
    and the destructor only adds its log line. *)
Theorem stop_idempotent (P : platform) (w : world) (t : list event) :
  let '(r1, w1, t1) := stop P w t in
  (m_is_running (server w) = false → r1 = Return () ∧ w1 = w ∧ t1 = t) ∧
  (m_is_running (server w) = true → m_clients_mtx (server w) = false →
     r1 = Return () ∧
     m_is_running (server w1) = false ∧
     io_service w1 !! m_fd (m_socket (server w)) = None ∧
     m_fd (m_socket (server w1)) = -1 ∧
     m_type (m_socket (server w1)) = UNKNOWN ∧
     m_clients (server w1) = [] ∧
     (∀ h c, h ∈ m_clients (server w) → clients w !! h = Some c →
        ∃ c', clients w1 !! h = Some c' ∧ state c' = Disconnected) ∧
     (∃ closing evs,
        t1 = t ++ closing ++ [EvLock] ++ evs ++
               [EvClients clients_clear; EvLog info "tcp_server stopped";
                EvUnlock] ∧
        Forall (λ e, teardown_event e = true) closing ∧
        Forall (λ e, teardown_event e = true) evs ∧
        (m_fd (m_socket (server w)) ≠ -1 →
           ∃ ret,
             EvSys (sys_close (m_fd (m_socket (server w)))) ret ∈ closing)) ∧
     stop P w1 t1 = (Return (), w1, t1) ∧
     tcp_server_destroy P w1 t1 =
       (Return (), w1, t1 ++ [EvLog debug "destroy tcp_server"])).
Proof.
  destruct (stop P w t) as [[r1 w1] t1] eqn:Hs. split.
  - intros Hr. rewrite stop_not_running in Hs by done. by inversion Hs.
  - intros Hr Hm.
    destruct (stop_running P w t Hr Hm)
      as (w' & closing & evs & Hrun & Hcl & Hev & Hfd & Hsrv & Hio & _ & Hdis).
    rewrite Hrun in Hs. inversion Hs; subst r1 w1 t1; clear Hs.
    rewrite Hsrv. cbn.
    do 6 (split; [done|]).
    split.
    { intros h c Hin Hc. destruct Hdis as [_ Hdis].
      destruct (Hdis h c Hc) as (c' & Hc' & _ & _ & Hst).
      exists c'. split; [done|]. by apply Hst. }
    split; [by exists closing, evs|].
    assert (m_is_running (server w') = false) as Hr' by by rewrite Hsrv.
    split; [by apply stop_not_running|].
    unfold tcp_server_destroy. unfold_M. cbn.
    by rewrite stop_not_running.
Qed.

(** ** tcp_server::start *)

(** C5. [start] on a running server throws the "already running"
    condition and changes neither the state nor the trace.  On a server
    that is not running, when [bind] on the listening socket throws, [start]
    throws that same error at once: only the socket member carries what
    [bind] did to it, the server is still not running, the admission
    callback is the one it had, and the registry of the io service and the
    client collection are untouched. *)
Theorem start_failures (P : platform) (host : string) (port : Z)
    (callback : option (tcp_client → bool)) (w : world) (t : list event) :
  let '(r, w', t') := start P host port callback w t in
  (m_is_running (server w) = true →
     r = Throw {| err_level := warn;
                  what := "tcp_server is already running" |} ∧
     w' = w ∧ t' = t) ∧
  (m_is_running (server w) = false →
     ∀ e sk1 t1,
       bind P host port (m_socket (server w)) t = (Throw e, sk1, t1) →
       r = Throw e ∧ t' = t1 ∧
       w' = set_server (set_m_socket sk1) w ∧
       m_is_running (server w') = false ∧
       m_on_new_connection_callback (server w') =
         m_on_new_connection_callback (server w) ∧
       m_clients (server w') = m_clients (server w) ∧
       io_service w' = io_service w ∧
       clients w' = clients w).
Proof.
  unfold start, is_running, on_m_socket. unfold_M. cbn.
  destruct (m_is_running (server w)) eqn:Hr; cbn.
  - split; [done|]. intros Hx. discriminate Hx.
  - destruct (bind P host port (m_socket (server w)) t) as [[rb sk] tb] eqn:Hb.
    destruct rb; cbn.
    1: destruct (listen _ _ _ _) as [[[] ?] ?]; cbn.
    all: (split; [intros Hx; discriminate Hx|]);
      intros _ e0 sk1 t1 Heq; inversion Heq; subst.
    by rewrite Hr.
Qed.

(** ** tcp_server::on_read_available *)

Lemma accept_trace P s t :
  ∃ evs,
    (accept P s t).2 = t ++ evs ∧
    (count is_accept evs ≤ 1)%nat ∧
    count is_report evs = 0%nat.
Proof.
  unfold_socket. cbn.
  repeat (case_decide; cbn); rewrite <- ?app_assoc;
    try (by exists []; rewrite app_nil_r; cbn; split; [|split; [lia|]]);
    eexists; (split; [reflexivity|]); cbn; split; (done || lia).
Qed.

Lemma accept_returns P s t sk s' t' :
  accept P s t = (Return sk, s', t') →
  m_fd sk ≠ -1 ∧ m_host sk = "" ∧ m_type sk = CLIENT.
Proof.
  unfold_socket. cbn.
  repeat (case_decide; cbn); intros Heq; inversion Heq; subst; by cbn.
Qed.

Lemma teardown_not_accept (evs : list event) :
  Forall (λ e, teardown_event e = true) evs →
  Forall (λ e, is_accept e = false) evs.
Proof.
  intros H. eapply Forall_impl; [exact H|].
  intros [[] ?|[] ?| | |]; cbn; done.
Qed.

Lemma teardown_not_report (evs : list event) :
  Forall (λ e, teardown_event e = true) evs →
  Forall (λ e, is_report e = false) evs.
Proof.
  intros H. eapply Forall_impl; [exact H|].
  intros [[] ?|[] ?| | |]; cbn; done.
Qed.

(** C6. While the server is running (and its client mutex is free), a
    readiness event whose [accept()] throws does not let the error out:
    [on_read_available] returns normally, having logged the failure once
    and stopped the server: it is not running, the listening socket is
    untracked and closed, the client collection is empty and every client
    connection that was in it is disconnected; [::accept] was called at
    most once. *)
Theorem accept_failure_stops_server (P : platform) (fd : fd_t) (w : world)
    (t : list event) (e : tacopie_error) (sk1 : tcp_socket)
    (t1 : list event) :
  m_is_running (server w) = true →
  m_clients_mtx (server w) = false →
  accept P (m_socket (server w))
    (t ++ [EvLog info "tcp_server received new connection"]) =
    (Throw e, sk1, t1) →
  let '(r, w', t') := on_read_available P fd w t in
  r = Return () ∧
  m_is_running (server w') = false ∧
  m_fd (m_socket (server w')) = -1 ∧
  m_type (m_socket (server w')) = UNKNOWN ∧
  (m_fd sk1 ≠ -1 → ∃ ret, EvSys (sys_close (m_fd sk1)) ret ∈ added t t') ∧
  io_service w' !! m_fd sk1 = None ∧
  m_clients (server w') = [] ∧
  (∀ h c, h ∈ m_clients (server w) → clients w !! h = Some c →
     ∃ c', clients w' !! h = Some c' ∧ state c' = Disconnected) ∧
  (count is_accept (added t t') ≤ 1)%nat ∧
  count is_report (added t t') = 1%nat ∧
  EvLog warn "accept operation failure" ∈ added t t'.
Proof.
  intros Hr Hm Hacc.
  destruct (accept_trace P (m_socket (server w))
              (t ++ [EvLog info "tcp_server received new connection"]))
    as (evs_a & Ht1 & Hacc1 & Hrep1).
  rewrite Hacc in Ht1. cbn in Ht1. subst t1.
  unfold on_read_available, try_catch, on_m_socket, zoom. unfold_M. cbn.
  rewrite Hacc. cbn.
  match goal with
  | |- context [stop P ?w0 ?t0] =>
      destruct (stop_running P w0 t0 Hr Hm)
        as (w' & closing & evs & Hrun & Hcl & Hev & Hfd & Hsrv & Hio & _ & Hdis);
      rewrite Hrun
  end.
  cbn in Hsrv, Hio, Hfd, Hdis. rewrite Hsrv. cbn.
  do 4 (split; [done|]).
  rewrite <- !app_assoc, added_app.
  split.
  { intros Hne. destruct (Hfd Hne) as [ret Hin]. exists ret.
    rewrite !elem_of_app. right. right. right. by left. }
  do 2 (split; [done|]).
  split.
  { intros h c Hin Hc. destruct Hdis as [_ Hdis].
    destruct (Hdis h c Hc) as (c' & Hc' & _ & _ & Hst).
    exists c'. split; [done|]. by apply Hst. }
  rewrite !count_app. cbn [count is_accept is_report]. rewrite !count_app.
  rewrite (count_Forall_not is_accept closing) by by apply teardown_not_accept.
  rewrite (count_Forall_not is_accept evs) by by apply teardown_not_accept.
  rewrite (count_Forall_not is_report closing) by by apply teardown_not_report.
  rewrite (count_Forall_not is_report evs) by by apply teardown_not_report.
  rewrite Hrep1. cbn.
  split; [lia|]. split; [done|].
  apply elem_of_cons. right. apply elem_of_app. right.
  apply elem_of_cons. by left.
Qed.

(** C3 (amended). On a readiness event whose [accept()] succeeds,
    [on_read_available] returns normally and the admission callback
    decides.  When a callback is set and returns false, the connection does
    not enter the client collection, it never gets a disconnection handler,
    and it is released at once: its descriptor is untracked and closed and
    the object is gone.  When the callback returns true, and also when no
    callback is set, the connection is appended to the collection with its
    disconnection handler bound to the server's removal path for it. *)
Theorem admission_decides (P : platform) (fd : fd_t) (w : world)
    (t : list event) (sk sk1 : tcp_socket) (t1 : list event) :
  accept P (m_socket (server w))
    (t ++ [EvLog info "tcp_server received new connection"]) =
    (Return sk, sk1, t1) →
  let client := fresh (dom (clients w)) in
  let c := {| socket := sk; state := Connected; pending_read := None;
              pending_write := None; disconnection_notifier := None |} in
  let admitted :=
    match m_on_new_connection_callback (server w) with
    | Some f => f c
    | None => true
    end in
  let '(r, w', t') := on_read_available P fd w t in
  r = Return () ∧
  clients w !! client = None ∧
  if admitted then
    m_clients (server w') = m_clients (server w) ++ [client] ∧
    clients w' =
      <[client := set_disconnection_notifier
                    (Some (server_on_client_disconnected client)) c]>
        (clients w) ∧
    io_service w' = io_service w ∧
    t' = t1 ++ [EvLog debug "moved tcp_socket";
                EvLog info "tcp_server accepted new connection";
                EvClients (clients_push_back client)]
  else
    m_clients (server w') = m_clients (server w) ∧
    clients w' = clients w ∧
    io_service w' = delete (m_fd sk) (io_service w) ∧
    ∃ ret,
      t' = t1 ++ [EvLog debug "moved tcp_socket";
                  EvLog info "tcp_server dismissed new connection";
                  EvLog debug "close socket";
                  EvSys (sys_close (m_fd sk)) ret].
Proof.
  intros Hacc client c admitted.
  assert (clients w !! client = None) as Hfresh
    by apply not_elem_of_dom, is_fresh.
  destruct (accept_returns _ _ _ _ _ _ Hacc) as (Hfd & _ & _).
  unfold on_read_available, try_catch, on_m_socket, zoom,
    make_shared_tcp_client, set_on_disconnection_handler,
    tcp_socket_move_ctor.
  unfold_M. cbn. rewrite Hacc. cbn.
  fold client. rewrite lookup_insert_eq. fold c. fold admitted.
  destruct admitted; cbn.
  - split; [done|]. split; [done|].
    split; [done|]. split; [|split; [done|by rewrite <- !app_assoc]].
    by rewrite alter_insert_eq.
  - unfold release_tcp_client, disconnect, untrack. unfold_M. cbn.
    rewrite lookup_insert_eq. cbn. case_decide; [done|]. cbn.
    rewrite close_run. cbn.
    case_decide; [|done]. cbn.
    split; [done|]. split; [done|]. split; [done|].
    split; [|split; [done|]].
    + apply map_eq. intros i. destruct (decide (i = client)) as [->|Hne].
      * by rewrite lookup_delete_eq.
      * by rewrite lookup_delete_ne, lookup_alter_ne, !lookup_insert_ne.
    + eexists. by rewrite <- !app_assoc.
Qed.

(** ** Runs on the concrete platform *)

(** C1, as stated, fails: [set_type] is a public operation other than
    [close], and on a [CLIENT] socket that holds a descriptor it returns
    normally and leaves the type [SERVER]. *)
Lemma set_type_moves_client_to_server :
  let '(r, s', t') :=
    run_op (scripted no_failure 0) (op_set_type SERVER) client_socket [] in
  m_fd client_socket ≠ -1 ∧ m_type client_socket = CLIENT ∧
  op_set_type SERVER ≠ op_close ∧
  r = Return () ∧ m_type s' = SERVER.
Proof. cbn. repeat split; done. Qed.

(** A socket whose type was set while it held no descriptor loses that type
    on its next operation: [create_socket_if_necessary] resets it. *)
Example bind_after_set_type_on_fresh_socket :
  let P := scripted no_failure 0 in
  let '(_, s1, t1) := set_type CLIENT tcp_socket_new [] in
  let '(r, s2, _) := bind P "localhost" 8080 s1 t1 in
  m_type s1 = CLIENT ∧ r = Return () ∧ m_type s2 = SERVER.
Proof. vm_compute. repeat split; done. Qed.

(** [bind] on a connected client socket: refused, nothing changed. *)
Lemma type_fixed_by_typed_operations_witness :
  (let '(r, s', t') :=
     run_op (scripted no_failure 0) (op_bind "localhost" 8080)
       client_socket [] in
   r = Throw invalid_operation ∧ s' = client_socket ∧ t' = []) ∧
  (let '(r, s', t') :=
     run_op (scripted no_failure 0) (op_send [x61] 1) client_socket [] in
   m_type s' = CLIENT ∧ r ≠ Throw invalid_operation ∧ t' ≠ []).
Proof.
  split.
  - pose proof (type_fixed_by_typed_operations (scripted no_failure 0)
                  (op_bind "localhost" 8080) client_socket []
                  ltac:(done) ltac:(done)) as H.
    destruct (run_op _ _ _ _) as [[r s'] t'].
    cbn in H. destruct H as [[H _]|(_ & H)]; [discriminate H|exact H].
  - pose proof (type_fixed_by_typed_operations (scripted no_failure 0)
                  (op_send [x61] 1) client_socket []
                  ltac:(done) ltac:(done)) as H.
    destruct (run_op _ _ _ _) as [[r s'] t'].
    cbn in H. destruct H as [(_ & H)|(H & _)]; [exact H|by destruct H].
Defined.

(** The same theorem on an operation of the socket's own type: [send] on
    a connected client socket is not refused and reaches [::send]. *)
Example send_on_client_socket_proceeds :
  let '(r, s', t') :=
    run_op (scripted no_failure 0) (op_send [x61] 1) client_socket [] in
  r = Return () ∧ m_type s' = CLIENT ∧
  t' = [EvSys (sys_send 5 [x61] 1) 1].
Proof. by vm_compute. Qed.

(** [::recv] answers 0: the "closed by remote host" condition. *)
Lemma recv_outcomes_witness :
  (recv (scripted no_failure 0) 4 client_socket []).1.1 =
    Throw closed_by_remote_host ∧
  ∃ data, (recv (scripted no_failure 2) 4 client_socket []).1.1 =
            Return data ∧
          length data = 4%nat ∧
          data !! 0%nat = Some x61 ∧ data !! 1%nat = Some x61 ∧
          data !! 2%nat = Some x00 ∧ data !! 3%nat = Some x00.
Proof.
  split.
  - destruct (recv_outcomes (scripted no_failure 0) 4 client_socket [] 0
                eq_refl) as (_ & [_ H] & _).
    exact (H eq_refl).
  - destruct (recv_outcomes (scripted no_failure 2) 4 client_socket [] 2
                eq_refl) as (_ & _ & _ & _ & _ & _ & _ & H).
    destruct (H ltac:(done)) as (data & Hr & Hlen & Hat).
    exists data. split; [exact Hr|]. split; [exact Hlen|].
    split; [exact (Hat [] eq_refl 0%nat ltac:(lia))|].
    split; [exact (Hat [] eq_refl 1%nat ltac:(lia))|].
    split; [exact (Hat [] eq_refl 2%nat ltac:(lia))|].
    exact (Hat [] eq_refl 3%nat ltac:(lia)).
Defined.

(** [::recv] stores two bytes in a buffer of four. *)
Lemma recv_buffer_length_witness :
  length [x61; x61; x00; x00] = 4%nat ∧
  ∀ i : nat, 2 ≤ Z.of_nat i → (i < 4)%nat →
    [x61; x61; x00; x00] !! i = Some x00.
Proof.
  exact (recv_buffer_length (scripted no_failure 2) 4 client_socket []
           _ 2 eq_refl eq_refl).
Defined.

(** Two calls that read one and three bytes return buffers of the same
    length. *)
Example recv_length_hides_count :
  (recv (scripted no_failure 1) 4 client_socket []).1.1 =
    Return [x61; x00; x00; x00] ∧
  (recv (scripted no_failure 3) 4 client_socket []).1.1 =
    Return [x61; x61; x61; x00].
Proof. by vm_compute. Qed.

(** C8. The code does not do what the claim asks.  A listening socket
    accepts a connection from 10.0.0.1, port 8080: the socket returned has
    type [CLIENT] and the new descriptor, but its host is the empty string
    and its port is the [sin_port] field as the system stored it, in
    network byte order (36895 on this host), not 8080. *)
Theorem accept_drops_peer_address :
  accept (scripted no_failure 0) listening_socket listening_trace =
    (Return {| m_fd := 4; m_host := ""; m_port := 36895; m_type := CLIENT |},
     listening_socket,
     listening_trace ++
       [EvSys (sys_accept 3) 4; EvLog debug "create tcp_socket"]) ∧
  htons (scripted no_failure 0) 8080 = 36895.
Proof. by vm_compute. Qed.

(** C3, as stated, fails: with no admission callback set, the accepted
    connection is not dropped.  It is appended to the client collection,
    connected, with its descriptor open (no [::close] was made) and its
    disconnection handler set. *)
Lemma absent_callback_admits :
  let '(r, w', t') := one_event None in
  m_on_new_connection_callback (server (started None).1.2) = None ∧
  m_clients (server (started None).1.2) = [] ∧
  r = Return () ∧
  m_clients (server w') = [0%nat] ∧
  clients w' !! 0%nat =
    Some {| socket := {| m_fd := 9; m_host := ""; m_port := 36895;
                         m_type := CLIENT |};
            state := Connected; pending_read := None; pending_write := None;
            disconnection_notifier :=
              Some (server_on_client_disconnected 0%nat) |} ∧
  count is_close t' = 0%nat.
Proof. by vm_compute. Qed.

(** A callback that rejects: the collection stays empty, the object is
    gone and the accepted descriptor 9 is closed once. *)
Lemma admission_decides_witness :
  let '(r, w', t') := one_event (Some reject_all) in
  r = Return () ∧ m_clients (server w') = [] ∧ clients w' = ∅ ∧
  count (is_close_of 9) t' = 1%nat.
Proof.
  pose proof (admission_decides (scripted no_failure 0) 3
                (started (Some reject_all)).1.2 (started (Some reject_all)).2
                {| m_fd := 9; m_host := ""; m_port := 36895;
                   m_type := CLIENT |}
                listening_socket
                ((started (Some reject_all)).2 ++
                   [EvLog info "tcp_server received new connection";
                    EvSys (sys_accept 3) 9;
                    EvLog debug "create tcp_socket"])
                ltac:(by vm_compute)) as H.
  cbv zeta in H. unfold one_event.
  destruct (on_read_available _ _ _ _) as [[r w'] t'].
  cbn in H. destruct H as (Hr & _ & Hm & Hc & _ & ret & Ht).
  split; [done|]. split; [done|]. split; [done|].
  subst t'. by vm_compute.
Defined.

(** [stop] on a running server with one client, then [stop] again. *)
Lemma stop_idempotent_witness :
  let '(r1, w1, t1) := stop (scripted no_failure 0)
                         (one_event None).1.2 (one_event None).2 in
  r1 = Return () ∧ m_is_running (server w1) = false ∧
  m_clients (server w1) = [] ∧
  stop (scripted no_failure 0) w1 t1 = (Return (), w1, t1).
Proof.
  pose proof (stop_idempotent (scripted no_failure 0)
                (one_event None).1.2 (one_event None).2) as H.
  destruct (stop _ _ _) as [[r1 w1] t1].
  destruct H as [_ H].
  destruct (H ltac:(by vm_compute) ltac:(by vm_compute))
    as (Hr & Hrun & _ & _ & _ & Hcl & _ & _ & Hstop & _).
  done.
Defined.

(** [::bind] answers -1: [start] throws and the server is not running. *)
Lemma start_failures_witness :
  let '(r, w', t') :=
    start (scripted bind_fails 0) "localhost" 8080 None world_new [] in
  r = Throw {| err_level := error; what := "bind() failure" |} ∧
  m_is_running (server w') = false ∧
  io_service w' = ∅.
Proof.
  pose proof (start_failures (scripted bind_fails 0) "localhost" 8080 None
                world_new []) as H.
  destruct (start _ _ _ _ _ _) as [[r w'] t'].
  destruct H as [_ H].
  destruct (H eq_refl {| err_level := error; what := "bind() failure" |}
              listening_socket
              [EvSys sys_socket 3; EvSys (sys_gethostbyname "localhost") 1;
               EvSys (sys_bind 3 {| sin_family := AF_INET; sin_port := 36895;
                                    sin_addr := 16777343 |}) (-1)]
              ltac:(by vm_compute))
    as (Hr & _ & _ & Hrun & _ & _ & Hio & _).
  done.
Defined.

(** [::accept] answers -1 on a running server with one client. *)
Lemma accept_failure_stops_server_witness :
  let '(r, w', t') :=
    on_read_available (scripted accept_fails 0) 3
      (one_event None).1.2 (one_event None).2 in
  r = Return () ∧ m_is_running (server w') = false ∧
  m_clients (server w') = [] ∧
  count is_report (added (one_event None).2 t') = 1%nat.
Proof.
  pose proof (accept_failure_stops_server (scripted accept_fails 0) 3
                (one_event None).1.2 (one_event None).2
                {| err_level := error; what := "accept() failure" |}
                listening_socket
                ((one_event None).2 ++
                   [EvLog info "tcp_server received new connection";
                    EvSys (sys_accept 3) (-1)])
                ltac:(by vm_compute) ltac:(by vm_compute)
                ltac:(by vm_compute)) as H.
  destruct (on_read_available _ _ _ _) as [[r w'] t'].
  destruct H as (Hr & Hrun & _ & _ & _ & _ & Hcl & _ & _ & Hrep & _).
  done.
Defined.

(** C9. The code does not do what the claim asks.  On a started server
    (no admission callback), a readiness event appends the accepted
    connection to the client list without [m_clients_mtx] ever being taken,
    while the two sibling paths, run from the state this leaves, both mutate
    the list between taking and releasing the mutex. *)
Theorem push_back_outside_lock :
  let P := scripted no_failure 0 in
  let '(_, w, t) := started None in
  let '(_, w1, t1) := on_read_available P 3 w t in
  let '(_, _, t2) := on_client_disconnected 0%nat w1 t1 in
  let '(_, _, t3) := stop P w1 t1 in
  added t t1 =
    [EvLog info "tcp_server received new connection";
     EvSys (sys_accept 3) 9;
     EvLog debug "create tcp_socket";
     EvLog debug "moved tcp_socket";
     EvLog info "tcp_server accepted new connection";
     EvClients (clients_push_back 0%nat)] ∧
  guarded (added t t1) = false ∧
  added t1 t2 =
    [EvLog debug "handle server's client disconnection";
     EvLock; EvClients (clients_erase 0%nat); EvUnlock] ∧
  guarded (added t1 t2) = true ∧
  added t1 t3 =
    [EvLog debug "close socket"; EvSys (sys_close 3) 0; EvLock;
     EvLog debug "close socket"; EvSys (sys_close 9) 0;
     EvClients clients_clear; EvLog info "tcp_server stopped"; EvUnlock] ∧
  guarded (added t1 t3) = true.
Proof. by vm_compute. Qed.

(** * Further properties of tcp_socket *)

Ltac trace_norm :=
  rewrite <- ?app_assoc; rewrite ?added_same, ?added_app; cbn.

(** A typed operation on a socket of the other type is refused before
    anything happens. *)
Lemma typed_operation_refused P op ty s t :
  required_type op = Some ty → m_fd s ≠ -1 →
  m_type s ≠ UNKNOWN → m_type s ≠ ty →
  run_op P op s t = (Throw invalid_operation, s, t).
Proof.
  intros Hop Hfd Hu Hty.
  destruct s as [fd hst prt []]; cbn in Hfd, Hu, Hty; [done| |].
  all: destruct op; cbn in Hop; inversion Hop; subst ty; try done.
  all: cbn [run_op]; unfold_socket; cbn.
  all: repeat (case_decide; cbn); try done.
  all: match goal with H : ¬ (_ ∧ _) |- _ => by destruct H end.
Qed.

(** X1. The first typed operation on a socket that holds a descriptor and
    has no type yet fixes the type, whether or not the operation itself
    succeeds, and keeps the descriptor; from then on every operation of the
    other type is refused with the object and the trace untouched. *)
Theorem first_typed_operation_fixes_type (P : platform) (op : socket_op)
    (ty : type) (s : tcp_socket) (t : list event) :
  required_type op = Some ty → m_fd s ≠ -1 → m_type s = UNKNOWN →
  let '(r, s', t') := run_op P op s t in
  m_type s' = ty ∧ m_fd s' = m_fd s ∧ r ≠ Throw invalid_operation ∧
  ∀ op2 ty2, required_type op2 = Some ty2 → ty2 ≠ ty →
    run_op P op2 s' t' = (Throw invalid_operation, s', t').
Proof.
  intros Hop Hfd Hu.
  destruct (run_op P op s t) as [[r s'] t'] eqn:Hrun.
  assert (m_type s' = ty ∧ m_fd s' = m_fd s ∧ r ≠ Throw invalid_operation)
    as (Hty & Hfd' & Hr).
  { destruct s as [fd hst prt ty0]; cbn in Hfd, Hu; subst ty0.
    destruct op; cbn in Hop; inversion Hop; subst ty; clear Hop.
    all: cbn [run_op] in Hrun; unfold_socket; cbn in Hrun.
    all: repeat (case_decide; cbn in Hrun);
      try match goal with H : ¬ (_ ∧ _) |- _ => clear H end.
    all: try match goal with H : _ ∧ _ |- _ => by destruct H end.
    all: try (destruct (hostent P t host); cbn in Hrun;
              repeat (case_decide; cbn in Hrun)).
    all: by inversion Hrun. }
  do 3 (split; [done|]).
  intros op2 ty2 Hop2 Hne. apply (typed_operation_refused P op2 ty2).
  - done.
  - congruence.
  - rewrite Hty. destruct op; cbn in Hop; inversion Hop; done.
  - congruence.
Qed.

Lemma first_typed_operation_fixes_type_witness :
  let P := scripted connect_fails 0 in
  let s := tcp_socket_from 5 "" 0 UNKNOWN in
  let '(r, s', t') := run_op P (op_connect "localhost" 8080) s [] in
  r = Throw {| err_level := error; what := "connect() failure" |} ∧
  m_type s' = CLIENT ∧
  run_op P (op_bind "localhost" 8080) s' t' = (Throw invalid_operation, s', t').
Proof.
  intros P s.
  pose proof (first_typed_operation_fixes_type P (op_connect "localhost" 8080)
                CLIENT s [] eq_refl ltac:(done) eq_refl) as H.
  destruct (run_op P (op_connect "localhost" 8080) s []) as [[r s'] t'] eqn:E.
  destruct H as (Hty & _ & _ & Hnext).
  split; [by vm_compute in E; inversion E|].
  split; [done|].
  by apply (Hnext (op_bind "localhost" 8080) SERVER).
Defined.

(** X2. A typed operation on a socket without a descriptor starts by
    calling [::socket].  When that fails the operation throws the socket()
    failure, makes no other call, and the socket is left without descriptor
    and without type; when it succeeds the socket holds the descriptor
    returned and has the type of the operation, whatever type it had been
    given before. *)
Theorem socket_created_on_first_use (P : platform) (op : socket_op)
    (ty : type) (s : tcp_socket) (t : list event) :
  required_type op = Some ty → m_fd s = -1 →
  let '(r, s', t') := run_op P op s t in
  head (added t t') = Some (EvSys sys_socket (sys_ret P t sys_socket)) ∧
  m_fd s' = sys_ret P t sys_socket ∧
  (sys_ret P t sys_socket = -1 →
     r = Throw socket_failure ∧ m_type s' = UNKNOWN ∧
     added t t' = [EvSys sys_socket (-1)]) ∧
  (sys_ret P t sys_socket ≠ -1 → m_type s' = ty).
Proof.
  intros Hop Hfd. destruct s as [fd hst prt ty0]; cbn in Hfd; subst fd.
  destruct op; cbn in Hop; inversion Hop; subst ty; clear Hop.
  all: cbn [run_op]; unfold_socket; cbn.
  all: repeat (case_decide; cbn); try done.
  all: try match goal with H : _ ∧ _ |- _ => by destruct H end.
  all: try (destruct (hostent P _ host); cbn; repeat (case_decide; cbn)).
  all: trace_norm; repeat split; try done.
  all: congruence.
Qed.

Lemma socket_created_on_first_use_witness :
  let '(r, s', t') :=
    run_op (scripted all_fail 0) (op_recv 4) tcp_socket_new [] in
  r = Throw socket_failure ∧ s' = tcp_socket_new ∧
  t' = [EvSys sys_socket (-1)].
Proof.
  pose proof (socket_created_on_first_use (scripted all_fail 0) (op_recv 4)
                CLIENT tcp_socket_new [] eq_refl eq_refl) as H.
  destruct (run_op _ _ _ _) as [[r s'] t'] eqn:E.
  destruct H as (_ & _ & H & _).
  destruct (H eq_refl) as (Hr & _ & Ht).
  split; [done|]. split; [by vm_compute in E; inversion E|].
  by rewrite <- Ht.
Defined.

(** X3. No operation other than [close] gives up a held descriptor or
    calls [::close] or [::socket] on a socket that holds one: a failed
    [connect], [bind], [listen], [accept], [send] or [recv] leaves the
    descriptor open. *)
Theorem held_descriptor_released_only_by_close (P : platform)
    (op : socket_op) (s : tcp_socket) (t : list event) :
  m_fd s ≠ -1 → op ≠ op_close →
  let '(r, s', t') := run_op P op s t in
  m_fd s' = m_fd s ∧
  count is_close (added t t') = 0%nat ∧
  count is_socket_call (added t t') = 0%nat.
Proof.
  intros Hfd Hop. destruct op; try done.
  all: cbn [run_op]; unfold_socket; cbn.
  all: repeat (case_decide; cbn); try done.
  all: try (destruct (hostent P _ host); cbn; repeat (case_decide; cbn)).
  all: trace_norm; done.
Qed.

Lemma held_descriptor_released_only_by_close_witness :
  let P := scripted all_fail 0 in
  let '(r, s', t') := run_op P (op_listen 16) listening_socket [] in
  r = Throw {| err_level := debug; what := "listen() failure" |} ∧
  m_fd s' = 3 ∧ count is_close t' = 0%nat.
Proof.
  intros P.
  pose proof (held_descriptor_released_only_by_close P (op_listen 16)
                listening_socket [] ltac:(done) ltac:(done)) as H.
  destruct (run_op P (op_listen 16) listening_socket []) as [[r s'] t'] eqn:E.
  destruct H as (Hfd & Hcl & _).
  split; [by vm_compute in E; inversion E|]. split; [done|].
  by rewrite <- Hcl.
Defined.

(** X4. The host and port of a socket are set by its constructors only: no
    operation changes them, so [connect] and [bind] do not record the
    address they are given and [get_host], [get_port] answer afterwards
    what they answered before. *)
Theorem host_and_port_never_updated (P : platform) (op : socket_op)
    (s : tcp_socket) (t : list event) :
  let '(r, s', t') := run_op P op s t in
  m_host s' = m_host s ∧ m_port s' = m_port s ∧
  get_host s' t' = (Return (m_host s), s', t') ∧
  get_port s' t' = (Return (m_port s), s', t').
Proof.
  assert (let '(r, s', t') := run_op P op s t in
          m_host s' = m_host s ∧ m_port s' = m_port s) as H.
  { destruct op; cbn [run_op]; try rewrite close_run.
    all: unfold_socket; cbn.
    all: repeat (case_decide; cbn); try done.
    all: try (destruct (hostent P _ host); cbn; repeat (case_decide; cbn)).
    all: done. }
  destruct (run_op P op s t) as [[r s'] t']. destruct H as [Hh Hp].
  unfold get_host, get_port, gets. by rewrite Hh, Hp.
Qed.

(** X5. After any operation other than [set_type], a socket without a
    descriptor has no type. *)
Theorem no_descriptor_no_type (P : platform) (op : socket_op)
    (s : tcp_socket) (t : list event) :
  (∀ ty, op ≠ op_set_type ty) →
  let '(r, s', t') := run_op P op s t in
  m_fd s' = -1 → m_type s' = UNKNOWN.
Proof.
  intros Hop. destruct op; cbn [run_op]; try rewrite close_run;
    try (by destruct (Hop t0)).
  all: unfold_socket; cbn.
  all: repeat (case_decide; cbn); try done.
  all: try (destruct (hostent P _ host); cbn; repeat (case_decide; cbn)).
  all: try done.
Qed.

Lemma no_descriptor_no_type_witness :
  let '(r, s', t') :=
    run_op (scripted no_failure 0) op_close client_socket [] in
  m_fd s' = -1 ∧ m_type s' = UNKNOWN.
Proof.
  pose proof (no_descriptor_no_type (scripted no_failure 0) op_close
                client_socket [] ltac:(done)) as H.
  destruct (run_op _ _ _ _) as [[r s'] t'] eqn:E.
  assert (m_fd s' = -1) as Hfd by (by vm_compute in E; inversion E).
  split; [done|]. by apply H.
Defined.

(** X6. On a socket that holds a descriptor and is not a server socket,
    [send] makes exactly one [::send] call, with the buffer and the count it
    was given (the count is not checked against the length of the buffer),
    and hands back what that call returned: a count smaller than asked for
    is returned as it is, not completed by further calls; only -1 makes it
    throw. *)
Theorem send_makes_one_call (P : platform) (data : list byte)
    (size_to_write : nat) (s : tcp_socket) (t : list event) :
  m_fd s ≠ -1 → m_type s ≠ SERVER →
  let wr_size := sys_ret P t (sys_send (m_fd s) data size_to_write) in
  send P data size_to_write s t =
    (if decide (wr_size = -1) then Throw send_failure else Return wr_size,
     set_m_type CLIENT s,
     t ++ [EvSys (sys_send (m_fd s) data size_to_write) wr_size]).
Proof.
  intros Hfd Hty. destruct s as [fd hst prt []]; try done.
  all: unfold_socket; cbn in *.
  all: repeat (case_decide; cbn); try done.
  all: match goal with H : _ ∧ _ |- _ => by destruct H end.
Qed.

Lemma send_makes_one_call_witness :
  send (scripted no_failure 0) [x61; x62] 7 client_socket [] =
    (Return 7, client_socket, [EvSys (sys_send 5 [x61; x62] 7) 7]).
Proof.
  exact (send_makes_one_call (scripted no_failure 0) [x61; x62] 7
           client_socket [] ltac:(done) ltac:(done)).
Defined.

(** X7. When the resolver finds no address, [connect] and [bind] throw the
    gethostbyname() failure without calling [::connect] or [::bind]; the
    socket keeps its descriptor and has already taken the type of the
    operation. *)
Theorem resolver_failure_makes_no_call (P : platform) (host : string)
    (port : Z) (s : tcp_socket) (t : list event) :
  m_fd s ≠ -1 → hostent P t host = None →
  (m_type s ≠ SERVER →
     connect P host port s t =
       (Throw resolver_failure, set_m_type CLIENT s,
        t ++ [EvSys (sys_gethostbyname host) 0])) ∧
  (m_type s ≠ CLIENT →
     bind P host port s t =
       (Throw resolver_failure, set_m_type SERVER s,
        t ++ [EvSys (sys_gethostbyname host) 0])).
Proof.
  intros Hfd Hh. destruct s as [fd hst prt ty]. cbn in Hfd.
  split; intros Hty; destruct ty; try done.
  all: unfold_socket; cbn in *.
  all: repeat (case_decide; cbn); try done.
  all: try match goal with H : _ ∧ _ |- _ => by destruct H end.
  all: by rewrite Hh.
Qed.

Lemma resolver_failure_makes_no_call_witness :
  let P :=
    {| sys_ret := λ _ _, 0; recv_payload := λ _ _ _, x00;
       accept_peer := λ _ _, {| sin_family := 0; sin_port := 0; sin_addr := 0 |};
       hostent := λ _ _, None; little_endian := true;
       TACOPIE_CONNECTION_QUEUE_SIZE := 1 |} in
  connect P "nowhere" 80 client_socket [] =
    (Throw resolver_failure, client_socket,
     [EvSys (sys_gethostbyname "nowhere") 0]).
Proof.
  intros P.
  exact (proj1 (resolver_failure_makes_no_call P "nowhere" 80 client_socket []
                  ltac:(done) eq_refl) ltac:(done)).
Defined.

Lemma htons_wraps P (port k : Z) : htons P (port + 65536 * k) = htons P port.
Proof.
  unfold htons. change 65535 with (Z.ones 16).
  rewrite !Z.land_ones by done.
  replace (port + 65536 * k) with (port + k * 2 ^ 16) by lia.
  by rewrite Z_mod_plus_full.
Qed.

(** X8. [bind] and [connect] take the port modulo 65536: the 32-bit port
    goes through [htons], which keeps its low 16 bits, so a port 65536
    (or a multiple) higher names the same port. *)
Theorem port_taken_modulo_65536 (P : platform) (host : string) (port k : Z)
    (s : tcp_socket) (t : list event) :
  bind P host (port + 65536 * k) s t = bind P host port s t ∧
  connect P host (port + 65536 * k) s t = connect P host port s t.
Proof. unfold bind, connect. by rewrite htons_wraps. Qed.

(** X9. When [recv] returns a buffer after [::recv] reported [n] bytes, the
    buffer holds, at every position below [n], the byte the system stored
    there. *)
Theorem recv_front_holds_received_bytes (P : platform) (size_to_read : nat)
    (s : tcp_socket) (t : list event) :
  let '(r, s', t') := recv P size_to_read s t in
  ∀ (data : list byte) (n : Z) (t0 : list event),
    r = Return data →
    t' = t0 ++ [EvSys (sys_recv (m_fd s') size_to_read) n] →
    ∀ i : nat, Z.of_nat i < n → (i < size_to_read)%nat →
      data !! i = Some (recv_payload P t0 (m_fd s') i).
Proof.
  unfold_socket. cbn.
  repeat (case_decide; cbn); intros data n t0 Hr Ht; try discriminate Hr.
  all: apply app_inj_tail in Ht as [<- Hev].
  all: inversion Hev; subst n; clear Hev.
  all: inversion Hr; subst data; clear Hr.
  all: intros i Hi Hlt.
  all: rewrite list_lookup_imap, lookup_replicate_2 by done; cbn.
  all: by rewrite bool_decide_true by done.
Qed.

Lemma recv_front_holds_received_bytes_witness :
  [x61; x61; x00; x00] !! 1%nat = Some x61.
Proof.
  exact (recv_front_holds_received_bytes (scripted no_failure 2) 4
           client_socket [] _ 2 [] eq_refl eq_refl 1%nat
           ltac:(done) ltac:(lia)).
Defined.

(** X10. Moving a socket hands descriptor, host, port and type to the new
    object and leaves the source without descriptor and without type, so
    that closing (or destroying) the source makes no system call: the
    descriptor has one owner. *)
Theorem moved_from_socket_owns_nothing (P : platform) (socket : tcp_socket)
    (t : list event) :
  let '(new, old) := tcp_socket_move socket in
  new = socket ∧ m_fd old = -1 ∧ m_type old = UNKNOWN ∧
  close P old t = (Return (), old, t) ∧
  (m_fd socket ≠ -1 → tcp_socket_eqb new old = false).
Proof.
  cbn. rewrite close_run. cbn. rewrite app_nil_r.
  do 4 (split; [done|]).
  intros Hfd. unfold tcp_socket_eqb. cbn.
  by rewrite bool_decide_false.
Qed.

Lemma moved_from_socket_owns_nothing_witness :
  tcp_socket_eqb (tcp_socket_move client_socket).1
    (tcp_socket_move client_socket).2 = false.
Proof.
  exact (proj2 (proj2 (proj2 (proj2
    (moved_from_socket_owns_nothing (scripted no_failure 0) client_socket []))))
    ltac:(done)).
Defined.

(** X11. [operator==] on sockets looks at the descriptor and the type only:
    it is an equivalence that is blind to host and port, [operator!=] is
    its negation, and any two closed sockets are equal, to each other and to
    a newly constructed one. *)
Theorem socket_equality_ignores_address (P : platform)
    (a b c : tcp_socket) (t : list event) :
  tcp_socket_eqb a a = true ∧
  tcp_socket_eqb a b = tcp_socket_eqb b a ∧
  (tcp_socket_eqb a b = true → tcp_socket_eqb b c = true →
     tcp_socket_eqb a c = true) ∧
  (∀ host port,
     tcp_socket_eqb a (tcp_socket_from (m_fd a) host port (m_type a)) = true) ∧
  tcp_socket_neqb a b = negb (tcp_socket_eqb a b) ∧
  tcp_socket_eqb (close P a t).1.2 (close P b t).1.2 = true ∧
  tcp_socket_eqb (close P a t).1.2 tcp_socket_new = true.
Proof.
  rewrite !close_run. unfold tcp_socket_neqb, tcp_socket_eqb. cbn.
  split; [by rewrite !bool_decide_true|].
  split.
  { apply eq_true_iff_eq. rewrite !andb_true_iff, !bool_decide_eq_true.
    split; intros [? ?]; split; congruence. }
  split.
  { rewrite !andb_true_iff, !bool_decide_eq_true. intros [-> ->] [-> ->].
    done. }
  split; [intros; by rewrite !bool_decide_true|done].
Qed.

Lemma socket_equality_ignores_address_witness :
  tcp_socket_eqb client_socket (tcp_socket_from 5 "peer" 80 CLIENT) = true.
Proof.
  destruct (socket_equality_ignores_address (scripted no_failure 0)
              client_socket (tcp_socket_from 5 "peer" 80 CLIENT)
              (tcp_socket_from 5 "peer" 80 CLIENT) [])
    as (_ & _ & Htrans & Hblind & _).
  exact (Htrans (Hblind "peer" 80) eq_refl).
Defined.

(** * Further properties of tcp_server *)

(** What a typed socket operation leaves in the trace and in the object. *)
Lemma typed_operation_facts P op ty s t :
  required_type op = Some ty →
  let '(r, s', t') := run_op P op s t in
  ∃ evs,
    t' = t ++ evs ∧
    count is_close evs = 0%nat ∧
    (count is_accept evs ≤ 1)%nat ∧
    (op ≠ op_accept → count is_accept evs = 0%nat) ∧
    Forall (λ e, touches_collection e = false) evs ∧
    m_fd s' = (if decide (m_fd s ≠ -1) then m_fd s
               else sys_ret P t sys_socket) ∧
    (r = Return () → m_fd s' ≠ -1 ∧ m_type s' = ty) ∧
    r ≠ Deadlock.
Proof.
  intros Hop.
  destruct op; cbn in Hop; inversion Hop; subst ty; clear Hop.
  all: cbn [run_op]; unfold_socket; cbn.
  all: repeat (case_decide; cbn).
  all: try (destruct (hostent P _ host); cbn; repeat (case_decide; cbn)).
  all: rewrite <- ?app_assoc; cbn.
  all: try (exists []; rewrite app_nil_r; cbn;
            split; [done|]; split; [done|]; split; [lia|]; split; [done|];
            split; [constructor|]; split; [try done|]; split; done).
  all: eexists; (split; [reflexivity|]); cbn.
  all: split; [done|]; split; [lia|]; split; [done|].
  all: split; [repeat constructor|].
  all: split; [try done|]; split; try done.
  all: try (intros _; split; [congruence|done]).
Qed.

(** X12. When [start] returns, the server was not running before and is
    running now; its listening socket holds a descriptor and has type
    [SERVER]; that descriptor is tracked by the io service with the
    server's read callback and no write callback; the admission callback is
    the one given; the client collection, the client objects and the other
    entries of the registry are untouched; nothing was closed. *)
Theorem start_success (P : platform) (host : string) (port : Z)
    (callback : option (tcp_client → bool)) (w : world) (t : list event) :
  let '(r, w', t') := start P host port callback w t in
  r = Return () →
  m_is_running (server w) = false ∧
  m_is_running (server w') = true ∧
  m_fd (m_socket (server w')) ≠ -1 ∧
  m_type (m_socket (server w')) = SERVER ∧
  io_service w' !! m_fd (m_socket (server w')) =
    Some {| read_callback := Some server_on_read_available;
            write_callback := None |} ∧
  (∀ fd, fd ≠ m_fd (m_socket (server w')) →
     io_service w' !! fd = io_service w !! fd) ∧
  m_on_new_connection_callback (server w') = callback ∧
  m_clients (server w') = m_clients (server w) ∧
  m_clients_mtx (server w') = m_clients_mtx (server w) ∧
  clients w' = clients w ∧
  count is_close (added t t') = 0%nat.
Proof.
  unfold start, is_running, on_m_socket, track, set_rd_callback.
  unfold_M. cbn.
  destruct (m_is_running (server w)) eqn:Hr; cbn; [intros Hx; discriminate Hx|].
  pose proof (typed_operation_facts P (op_bind host port) SERVER
                (m_socket (server w)) t eq_refl) as Hb.
  cbn [run_op] in Hb.
  destruct (bind P host port (m_socket (server w)) t) as [[rb sk1] t1].
  destruct Hb as (evs1 & -> & Hcl1 & _ & _ & _ & _ & Hret1 & _).
  destruct rb as [[]| |]; cbn; try (intros Hx; discriminate Hx).
  pose proof (typed_operation_facts P
                (op_listen (TACOPIE_CONNECTION_QUEUE_SIZE P)) SERVER
                sk1 (t ++ evs1) eq_refl) as Hl.
  cbn [run_op] in Hl.
  destruct (listen P (TACOPIE_CONNECTION_QUEUE_SIZE P) sk1 (t ++ evs1))
    as [[rl sk2] t2].
  destruct Hl as (evs2 & -> & Hcl2 & _ & _ & _ & _ & Hret2 & _).
  destruct rl as [[]| |]; cbn; try (intros Hx; discriminate Hx).
  intros _. destruct (Hret2 eq_refl) as [Hfd2 Hty2].
  do 4 (split; [done|]).
  split; [by rewrite lookup_alter_eq, lookup_insert_eq|].
  split.
  { intros fd Hne. by rewrite lookup_alter_ne, lookup_insert_ne. }
  do 4 (split; [done|]).
  rewrite <- !app_assoc, added_app, !count_app, Hcl1, Hcl2. done.
Qed.

Lemma start_success_witness :
  let '(r, w', t') := started None in
  m_is_running (server w') = true ∧
  io_service w' !! 3 =
    Some {| read_callback := Some server_on_read_available;
            write_callback := None |}.
Proof.
  pose proof (start_success (scripted no_failure 0) "localhost" 8080 None
                world_new []) as H.
  unfold started.
  destruct (start _ _ _ _ _ _) as [[r w'] t'] eqn:E.
  assert (r = Return ()) as Hr by (by vm_compute in E; inversion E).
  destruct (H Hr) as (_ & Hrun & _ & _ & Hio & _).
  split; [done|].
  assert (m_fd (m_socket (server w')) = 3) as <-
    by (by vm_compute in E; inversion E).
  done.
Defined.

(** X13. [start] never closes anything.  From a server that is not running,
    the listening socket afterwards holds the descriptor it held, or the one
    [::socket] returned; and when [start] throws, whether in [bind] or in
    [listen], the server is still not running, nothing is tracked, and a
    following [stop()] does nothing: a descriptor opened by the failed
    [start] stays open. *)
Theorem failed_start_keeps_descriptor_open (P : platform) (host : string)
    (port : Z) (callback : option (tcp_client → bool)) (w : world)
    (t : list event) :
  m_is_running (server w) = false →
  let '(r, w', t') := start P host port callback w t in
  count is_close (added t t') = 0%nat ∧
  m_fd (m_socket (server w')) =
    (if decide (m_fd (m_socket (server w)) ≠ -1)
     then m_fd (m_socket (server w))
     else sys_ret P t sys_socket) ∧
  ∀ e, r = Throw e →
    m_is_running (server w') = false ∧
    io_service w' = io_service w ∧
    m_on_new_connection_callback (server w') =
      m_on_new_connection_callback (server w) ∧
    stop P w' t' = (Return (), w', t').
Proof.
  intros Hr.
  unfold start, is_running, on_m_socket, track, set_rd_callback.
  unfold_M. cbn. rewrite Hr. cbn.
  pose proof (typed_operation_facts P (op_bind host port) SERVER
                (m_socket (server w)) t eq_refl) as Hb.
  cbn [run_op] in Hb.
  destruct (bind P host port (m_socket (server w)) t) as [[rb sk1] t1].
  destruct Hb as (evs1 & -> & Hcl1 & _ & _ & _ & Hfd1 & Hret1 & Hnd1).
  destruct rb as [[]| |]; cbn; [| |done].
  2:{ rewrite added_app. do 2 (split; [done|]). intros e0 _.
      do 3 (split; [done|]). by apply stop_not_running. }
  pose proof (typed_operation_facts P
                (op_listen (TACOPIE_CONNECTION_QUEUE_SIZE P)) SERVER
                sk1 (t ++ evs1) eq_refl) as Hl.
  cbn [run_op] in Hl.
  destruct (listen P (TACOPIE_CONNECTION_QUEUE_SIZE P) sk1 (t ++ evs1))
    as [[rl sk2] t2].
  destruct Hl as (evs2 & -> & Hcl2 & _ & _ & _ & Hfd2 & Hret2 & Hnd2).
  destruct (Hret1 eq_refl) as [Hne1 _].
  rewrite decide_True in Hfd2 by done.
  destruct rl as [[]| |]; cbn; [| |done].
  all: rewrite <- !app_assoc, added_app, !count_app, ?Hcl1, ?Hcl2.
  - split; [done|]. split; [congruence|]. intros e0 Hx. discriminate Hx.
  - split; [done|]. split; [congruence|]. intros e0 _.
    do 3 (split; [done|]). by apply stop_not_running.
Qed.

Lemma failed_start_keeps_descriptor_open_witness :
  let P := scripted listen_fails 0 in
  let '(r, w', t') := start P "localhost" 8080 None world_new [] in
  r = Throw {| err_level := debug; what := "listen() failure" |} ∧
  m_fd (m_socket (server w')) = 3 ∧ count is_close t' = 0%nat ∧
  stop P w' t' = (Return (), w', t').
Proof.
  intros P.
  pose proof (failed_start_keeps_descriptor_open P "localhost" 8080 None
                world_new [] eq_refl) as H.
  destruct (start P "localhost" 8080 None world_new []) as [[r w'] t'] eqn:E.
  destruct H as (Hcl & Hfd & Hthrow).
  assert (r = Throw {| err_level := debug; what := "listen() failure" |})
    as Hr by (by vm_compute in E; inversion E).
  destruct (Hthrow _ Hr) as (_ & _ & _ & Hstop).
  unfold added in Hcl. cbn in Hcl, Hfd. done.
Defined.

(** ** tcp_server::on_client_disconnected *)

Lemma on_client_disconnected_run client w t :
  m_is_running (server w) = true → m_clients_mtx (server w) = false →
  ∃ w' evs,
    on_client_disconnected client w t =
      (Return (), w',
       t ++ [EvLog debug "handle server's client disconnection"; EvLock] ++
         evs ++ [EvUnlock]) ∧
    clients w' = clients w ∧ io_service w' = io_service w ∧
    m_socket (server w') = m_socket (server w) ∧
    m_is_running (server w') = true ∧
    m_clients_mtx (server w') = false ∧
    m_on_new_connection_callback (server w') =
      m_on_new_connection_callback (server w) ∧
    match list_find (λ c, c = client) (m_clients (server w)) with
    | Some (i, _) =>
        evs = [EvClients (clients_erase client)] ∧
        m_clients (server w') = delete i (m_clients (server w))
    | None => evs = [] ∧ m_clients (server w') = m_clients (server w)
    end.
Proof.
  intros Hr Hm. unfold_server. cbn. rewrite Hr. cbn. rewrite Hm.
  destruct (list_find _ _) as [[i x]|]; cbn; rewrite <- ?app_assoc; cbn.
  - eexists _, [_]. split; [reflexivity|]. by cbn.
  - eexists _, []. split; [reflexivity|]. by cbn.
Qed.

(** X14. [on_client_disconnected] on a running server (client mutex free)
    returns with the first occurrence of the connection removed from the
    client list and everything else as it was: a connection that is not in
    the list leaves the list alone, a list without repetitions no longer
    holds the connection afterwards, the client objects, the registry and
    the listening socket are untouched, and the mutex, taken before the
    list was changed, is free again. *)
Theorem on_client_disconnected_erases_first (client : handle) (w : world)
    (t : list event) :
  m_is_running (server w) = true → m_clients_mtx (server w) = false →
  let '(r, w', t') := on_client_disconnected client w t in
  r = Return () ∧
  clients w' = clients w ∧ io_service w' = io_service w ∧
  m_socket (server w') = m_socket (server w) ∧
  m_is_running (server w') = true ∧
  m_clients_mtx (server w') = false ∧
  (client ∉ m_clients (server w) →
     m_clients (server w') = m_clients (server w)) ∧
  (client ∈ m_clients (server w) →
     ∃ l1 l2, m_clients (server w) = l1 ++ client :: l2 ∧ (client ∉ l1) ∧
              m_clients (server w') = l1 ++ l2) ∧
  (NoDup (m_clients (server w)) → client ∉ m_clients (server w')) ∧
  guarded (added t t') = true.
Proof.
  intros Hr Hm.
  destruct (on_client_disconnected_run client w t Hr Hm)
    as (w' & evs & -> & Hc & Hio & Hsk & Hr' & Hm' & _ & Hfind).
  do 6 (split; [done|]). rewrite added_app.
  destruct (list_find _ _) as [[i x]|] eqn:Hf.
  - destruct Hfind as [-> Hcs].
    apply list_find_Some in Hf as (Hi & -> & Hmin).
    assert (client ∉ take i (m_clients (server w))) as Hnotin.
    { intros (j & Hj)%list_elem_of_lookup.
      apply lookup_take_Some in Hj as [Hj Hlt]. by apply (Hmin j client). }
    pose proof (take_drop_middle _ _ _ Hi) as Hsplit.
    rewrite Hcs, delete_take_drop.
    split; [by intros Hn; destruct Hn; eapply list_elem_of_lookup_2|].
    split; [by intros _; eexists _, _|].
    split; [|done].
    intros Hnd. rewrite <- Hsplit in Hnd.
    apply NoDup_app in Hnd as (_ & Hdisj & Hnd2).
    apply NoDup_cons in Hnd2 as [Hnotin2 _].
    by intros [?|?]%elem_of_app.
  - destruct Hfind as [-> Hcs]. rewrite Hcs.
    apply list_find_None in Hf.
    assert (client ∉ m_clients (server w)) as Hnotin.
    { intros Hin. by eapply Forall_forall in Hf. }
    done.
Qed.

Lemma on_client_disconnected_erases_first_witness :
  let '(r, w', t') :=
    on_client_disconnected 0%nat (one_event None).1.2 (one_event None).2 in
  r = Return () ∧ m_clients (server w') = [].
Proof.
  pose proof (on_client_disconnected_erases_first 0%nat
                (one_event None).1.2 (one_event None).2
                ltac:(by vm_compute) ltac:(by vm_compute)) as H.
  destruct (on_client_disconnected _ _ _) as [[r w'] t'].
  destruct H as (Hr & _ & _ & _ & _ & _ & _ & Hin & _).
  split; [done|].
  destruct Hin as (l1 & l2 & Hcs & _ & ->).
  { by vm_compute; left. }
  assert (m_clients (server (one_event None).1.2) = [0%nat]) as Hone
    by by vm_compute.
  rewrite Hone in Hcs.
  destruct l1 as [|? [|? ?]]; inversion Hcs; done.
Defined.

(** ** Facts about each server operation, in every state *)

Lemma accept_facts P s t :
  let '(r, s', t') := accept P s t in
  ∃ evs,
    t' = t ++ evs ∧
    (count is_accept evs ≤ 1)%nat ∧
    Forall (λ e, touches_collection e = false) evs ∧
    r ≠ Deadlock.
Proof.
  unfold_socket. cbn.
  repeat (case_decide; cbn); rewrite <- ?app_assoc; cbn.
  all: try (exists []; rewrite app_nil_r; cbn;
            split; [done|]; split; [lia|]; split; [constructor|done]).
  all: eexists; (split; [reflexivity|]); cbn.
  all: split; [lia|]; split; [repeat constructor|done].
Qed.

Lemma guarded_from_neutral b (evs rest : list event) :
  Forall (λ e, touches_collection e = false) evs →
  guarded_from b (evs ++ rest) = guarded_from b rest.
Proof.
  induction 1 as [|e evs He _ IH]; [done|].
  destruct e as [| | | |]; cbn in He |- *; done.
Qed.

Lemma teardown_neutral (evs : list event) :
  Forall (λ e, teardown_event e = true) evs →
  Forall (λ e, touches_collection e = false) evs.
Proof.
  intros H. eapply Forall_impl; [exact H|].
  intros [[] ?|[] ?| | |]; cbn; done.
Qed.

Lemma neutral_guarded b (evs : list event) :
  Forall (λ e, touches_collection e = false) evs → guarded_from b evs = true.
Proof.
  intros H. rewrite <- (app_nil_r evs). by rewrite guarded_from_neutral.
Qed.

Lemma collection_ok_same w w' :
  m_clients (server w') = m_clients (server w) → clients w' = clients w →
  collection_ok w → collection_ok w'.
Proof. unfold collection_ok. by intros -> ->. Qed.

Lemma collection_ok_empty w : m_clients (server w) = [] → collection_ok w.
Proof.
  unfold collection_ok. intros ->. split; [constructor|].
  by intros h ?%elem_of_nil.
Qed.

Lemma stop_facts P w t :
  let '(r, w', t') := stop P w t in
  ∃ evs,
    t' = t ++ evs ∧
    count is_accept evs = 0%nat ∧
    (m_clients_mtx (server w) = false →
       r = Return () ∧ m_clients_mtx (server w') = false ∧
       guarded evs = true) ∧
    (collection_ok w → collection_ok w').
Proof.
  destruct (m_is_running (server w)) eqn:Hr.
  2:{ rewrite stop_not_running by done. exists []. rewrite app_nil_r.
      do 2 (split; [done|]). split; [by intros ->|done]. }
  destruct (m_clients_mtx (server w)) eqn:Hm.
  - unfold stop, is_running, untrack, on_m_socket, lock_guard.
    unfold_M. cbn. rewrite Hr. cbn. rewrite close_run. cbn. rewrite Hm.
    eexists. split; [reflexivity|].
    split; [by case_decide|]. split; [intros Hx; discriminate Hx|].
    by apply collection_ok_same.
  - destruct (stop_running P w t Hr Hm)
      as (w' & closing & evs & -> & Hcl & Hev & _ & Hsrv & _ & _ & _).
    eexists. split; [reflexivity|].
    split.
    { rewrite !count_app.
      rewrite (count_Forall_not is_accept closing)
        by by apply teardown_not_accept.
      by rewrite (count_Forall_not is_accept evs)
        by by apply teardown_not_accept. }
    split.
    { intros _. rewrite Hsrv. do 2 (split; [done|]).
      unfold guarded.
      rewrite guarded_from_neutral by by apply teardown_neutral.
      cbn. by rewrite guarded_from_neutral by by apply teardown_neutral. }
    intros _. apply collection_ok_empty. by rewrite Hsrv.
Qed.

Lemma start_facts P host port callback w t :
  let '(r, w', t') := start P host port callback w t in
  ∃ evs,
    t' = t ++ evs ∧
    count is_accept evs = 0%nat ∧
    Forall (λ e, touches_collection e = false) evs ∧
    r ≠ Deadlock ∧
    m_clients (server w') = m_clients (server w) ∧
    m_clients_mtx (server w') = m_clients_mtx (server w) ∧
    clients w' = clients w.
Proof.
  unfold start, is_running, on_m_socket, track, set_rd_callback.
  unfold_M. cbn.
  destruct (m_is_running (server w)) eqn:Hr; cbn.
  { exists []. rewrite app_nil_r. by repeat split. }
  pose proof (typed_operation_facts P (op_bind host port) SERVER
                (m_socket (server w)) t eq_refl) as Hb.
  cbn [run_op] in Hb.
  destruct (bind P host port (m_socket (server w)) t) as [[rb sk1] t1].
  destruct Hb as (evs1 & -> & _ & _ & Hacc1 & Hn1 & _ & _ & Hnd1).
  specialize (Hacc1 ltac:(done)).
  destruct rb as [[]| |]; cbn; [| |done].
  2:{ exists evs1. by repeat split. }
  pose proof (typed_operation_facts P
                (op_listen (TACOPIE_CONNECTION_QUEUE_SIZE P)) SERVER
                sk1 (t ++ evs1) eq_refl) as Hl.
  cbn [run_op] in Hl.
  destruct (listen P (TACOPIE_CONNECTION_QUEUE_SIZE P) sk1 (t ++ evs1))
    as [[rl sk2] t2].
  destruct Hl as (evs2 & -> & _ & _ & Hacc2 & Hn2 & _ & _ & Hnd2).
  specialize (Hacc2 ltac:(done)).
  destruct rl as [[]| |]; cbn; [| |done]; rewrite <- !app_assoc.
  - eexists. split; [reflexivity|]. rewrite !count_app, Hacc1, Hacc2.
    split; [done|]. split; [|done].
    repeat (apply Forall_app; split); try done. by repeat constructor.
  - eexists. split; [reflexivity|]. rewrite !count_app, Hacc1, Hacc2.
    split; [done|]. split; [|done]. by apply Forall_app.
Qed.

Lemma on_client_disconnected_facts client w t :
  let '(r, w', t') := on_client_disconnected client w t in
  ∃ evs,
    t' = t ++ evs ∧
    count is_accept evs = 0%nat ∧
    clients w' = clients w ∧
    m_clients (server w') `sublist_of` m_clients (server w) ∧
    (m_clients_mtx (server w) = false →
       r = Return () ∧ m_clients_mtx (server w') = false ∧
       guarded evs = true).
Proof.
  destruct (m_is_running (server w)) eqn:Hr.
  2:{ rewrite on_client_disconnected_not_running by done.
      exists []. rewrite app_nil_r.
      do 4 (split; [done|]). by intros ->. }
  destruct (m_clients_mtx (server w)) eqn:Hm.
  - unfold_server. cbn. rewrite Hr. cbn. rewrite Hm.
    eexists. split; [reflexivity|]. do 3 (split; [done|]).
    intros Hx; discriminate Hx.
  - destruct (on_client_disconnected_run client w t Hr Hm)
      as (w' & evs & -> & Hc & _ & _ & _ & Hm' & _ & Hfind).
    eexists. split; [reflexivity|].
    destruct (list_find _ _) as [[i x]|]; destruct Hfind as [-> Hcs];
      rewrite Hcs; (split; [done|]); (split; [done|]);
      (split; [first [apply sublist_delete | done]|]); by intros _.
Qed.

Lemma on_read_available_fail P fd w t e sk1 t1 :
  accept P (m_socket (server w))
    (t ++ [EvLog info "tcp_server received new connection"]) =
    (Throw e, sk1, t1) →
  on_read_available P fd w t =
    stop P (set_server (set_m_socket sk1) w)
      (t1 ++ [EvLog warn "accept operation failure"]).
Proof.
  intros Hacc. unfold on_read_available, try_catch, on_m_socket, zoom.
  unfold_M. cbn. by rewrite Hacc.
Qed.

Lemma on_read_available_return P fd w t sk sk1 t1 :
  accept P (m_socket (server w))
    (t ++ [EvLog info "tcp_server received new connection"]) =
    (Return sk, sk1, t1) →
  let client := fresh (dom (clients w)) in
  let c := {| socket := sk; state := Connected; pending_read := None;
              pending_write := None; disconnection_notifier := None |} in
  ∃ w' evs,
    on_read_available P fd w t = (Return (), w', t1 ++ evs) ∧
    count is_accept evs = 0%nat ∧
    m_clients_mtx (server w') = m_clients_mtx (server w) ∧
    if match m_on_new_connection_callback (server w) with
       | Some f => f c
       | None => true
       end
    then
      evs = [EvLog debug "moved tcp_socket";
             EvLog info "tcp_server accepted new connection";
             EvClients (clients_push_back client)] ∧
      m_clients (server w') = m_clients (server w) ++ [client] ∧
      clients w' =
        <[client := set_disconnection_notifier
                      (Some (server_on_client_disconnected client)) c]>
          (clients w)
    else
      Forall (λ e, touches_collection e = false) evs ∧
      m_clients (server w') = m_clients (server w) ∧
      clients w' = clients w.
Proof.
  intros Hacc client c.
  assert (clients w !! client = None) as Hfresh
    by apply not_elem_of_dom, is_fresh.
  assert (m_fd sk ≠ -1) as Hfd by by eapply accept_returns.
  unfold on_read_available, try_catch, on_m_socket, zoom,
    make_shared_tcp_client, set_on_disconnection_handler,
    tcp_socket_move_ctor.
  unfold_M. cbn. rewrite Hacc. cbn.
  fold client. rewrite lookup_insert_eq. fold c.
  destruct (match m_on_new_connection_callback (server w) with
            | Some f => f c
            | None => true
            end); cbn.
  - rewrite <- !app_assoc. cbn. eexists _, _. split; [reflexivity|].
    do 4 (split; [done|]). cbn. by rewrite alter_insert_eq.
  - unfold release_tcp_client, disconnect, untrack. unfold_M. cbn.
    rewrite lookup_insert_eq. cbn. case_decide; [done|]. cbn.
    rewrite close_run. cbn. case_decide; [|done]. cbn.
    rewrite <- !app_assoc. cbn.
    eexists _, _. split; [reflexivity|].
    do 2 (split; [done|]). split; [by repeat constructor|].
    split; [done|]. cbn.
    apply map_eq. intros i. destruct (decide (i = client)) as [->|Hne].
    + by rewrite lookup_delete_eq.
    + by rewrite lookup_delete_ne, lookup_alter_ne, !lookup_insert_ne.
Qed.

Lemma collection_ok_sublist w w' :
  m_clients (server w') `sublist_of` m_clients (server w) →
  clients w' = clients w → collection_ok w → collection_ok w'.
Proof.
  intros Hsub Hc [Hnd Hin]. split; [by eapply sublist_NoDup|].
  rewrite Hc. intros h Hh. apply Hin. by eapply elem_of_sublist.
Qed.

Lemma collection_ok_push_back w w' (c : tcp_client) :
  let client := fresh (dom (clients w)) in
  m_clients (server w') = m_clients (server w) ++ [client] →
  clients w' = <[client := c]> (clients w) →
  disconnection_notifier c = Some (server_on_client_disconnected client) →
  collection_ok w → collection_ok w'.
Proof.
  intros client Hcs Hc Hn [Hnd Hin].
  assert (clients w !! client = None) as Hfresh
    by apply not_elem_of_dom, is_fresh.
  assert (client ∉ m_clients (server w)) as Hnotin.
  { intros Hx. destruct (Hin _ Hx) as (c0 & Hc0 & _). congruence. }
  split.
  - rewrite Hcs. apply NoDup_app. split; [done|].
    split; [|apply NoDup_singleton].
    intros x Hx ->%list_elem_of_singleton. done.
  - rewrite Hcs, Hc. intros h [Hh| ->%list_elem_of_singleton]%elem_of_app.
    + rewrite lookup_insert_ne by (intros <-; done). by apply Hin.
    + exists c. by rewrite lookup_insert_eq.
Qed.

Lemma on_read_available_facts P fd w t :
  let '(r, w', t') := on_read_available P fd w t in
  ∃ evs,
    t' = t ++ evs ∧
    (count is_accept evs ≤ 1)%nat ∧
    (collection_ok w → collection_ok w') ∧
    (m_clients_mtx (server w) = false →
       r = Return () ∧ m_clients_mtx (server w') = false ∧
       (guarded evs = false →
          m_clients (server w') =
            m_clients (server w) ++ [fresh (dom (clients w))])).
Proof.
  pose proof (accept_facts P (m_socket (server w))
                (t ++ [EvLog info "tcp_server received new connection"]))
    as Ha.
  destruct (accept P (m_socket (server w))
              (t ++ [EvLog info "tcp_server received new connection"]))
    as [[ra sk1] t1] eqn:Hacc.
  destruct Ha as (evs_a & -> & Hcnt & Hneu & Hnd).
  destruct ra as [sk|e|]; [| |done].
  - destruct (on_read_available_return P fd w t sk sk1 _ Hacc)
      as (w' & evs & -> & Hcnt2 & Hm & Hcase).
    rewrite <- !app_assoc. eexists. split; [reflexivity|].
    cbn [app count is_accept]. rewrite !count_app, Hcnt2.
    split; [lia|].
    unfold guarded. cbn [guarded_from].
    rewrite guarded_from_neutral by done.
    destruct (match m_on_new_connection_callback (server w) with
              | Some f => f _
              | None => true
              end).
    + destruct Hcase as (-> & Hcs & Hc). split.
      * by eapply collection_ok_push_back.
      * intros Hfree. split; [done|]. split; [congruence|done].
    + destruct Hcase as (Hneu2 & Hcs & Hc). split.
      * by apply collection_ok_same.
      * intros Hfree. split; [done|]. split; [congruence|].
        by rewrite neutral_guarded.
  - rewrite (on_read_available_fail P fd w t e sk1 _ Hacc).
    pose proof (stop_facts P (set_server (set_m_socket sk1) w)
                  (((t ++ [EvLog info "tcp_server received new connection"])
                      ++ evs_a) ++ [EvLog warn "accept operation failure"]))
      as Hs.
    destruct (stop P _ _) as [[r w'] t'].
    destruct Hs as (evs_s & -> & Hcnt2 & Hfree & Hok).
    rewrite <- !app_assoc. eexists. split; [reflexivity|].
    cbn [app count is_accept]. rewrite !count_app. cbn [count is_accept].
    rewrite Hcnt2.
    split; [lia|]. split.
    + intros Hw. apply Hok. revert Hw. by apply collection_ok_same.
    + intros Hm. destruct (Hfree Hm) as (-> & Hm' & Hg).
      do 2 (split; [done|]).
      unfold guarded in *. cbn [guarded_from].
      rewrite guarded_from_neutral by done. cbn [app guarded_from].
      by rewrite Hg.
Qed.

(** Every server operation at once. *)
Lemma server_op_facts P op w t :
  let '(r, w', t') := run_server_op P op w t in
  ∃ evs,
    t' = t ++ evs ∧
    (count is_accept evs ≤ 1)%nat ∧
    ((∀ fd, op ≠ sop_on_read_available fd) → count is_accept evs = 0%nat) ∧
    (collection_ok w → collection_ok w') ∧
    (m_clients_mtx (server w) = false →
       r ≠ Deadlock ∧ m_clients_mtx (server w') = false ∧
       (guarded evs = false →
          (∃ fd, op = sop_on_read_available fd) ∧
          m_clients (server w') =
            m_clients (server w) ++ [fresh (dom (clients w))])).
Proof.
  destruct op as [host port callback| |fd|client|]; cbn [run_server_op].
  - pose proof (start_facts P host port callback w t) as H.
    destruct (start _ _ _ _ _ _) as [[r w'] t'].
    destruct H as (evs & -> & Hcnt & Hneu & Hnd & Hcs & Hm & Hc).
    exists evs. split; [done|]. split; [lia|]. split; [done|].
    split; [by apply collection_ok_same|].
    intros Hfree. split; [done|]. split; [congruence|].
    unfold guarded. by rewrite neutral_guarded.
  - pose proof (stop_facts P w t) as H.
    destruct (stop _ _ _) as [[r w'] t'].
    destruct H as (evs & -> & Hcnt & Hfree & Hok).
    exists evs. split; [done|]. split; [lia|]. split; [done|].
    split; [done|].
    intros Hm. destruct (Hfree Hm) as (-> & Hm' & Hg).
    do 2 (split; [done|]). by rewrite Hg.
  - pose proof (on_read_available_facts P fd w t) as H.
    destruct (on_read_available _ _ _ _) as [[r w'] t'].
    destruct H as (evs & -> & Hcnt & Hok & Hfree).
    exists evs. split; [done|]. split; [done|].
    split; [by intros Hx; destruct (Hx fd)|]. split; [done|].
    intros Hm. destruct (Hfree Hm) as (-> & Hm' & Hg).
    do 2 (split; [done|]). intros Hx. split; [by exists fd|by apply Hg].
  - pose proof (on_client_disconnected_facts client w t) as H.
    destruct (on_client_disconnected _ _ _) as [[r w'] t'].
    destruct H as (evs & -> & Hcnt & Hc & Hsub & Hfree).
    exists evs. split; [done|]. split; [lia|]. split; [done|].
    split; [by apply collection_ok_sublist|].
    intros Hm. destruct (Hfree Hm) as (-> & Hm' & Hg).
    do 2 (split; [done|]). by rewrite Hg.
  - unfold tcp_server_destroy. unfold_M. cbn.
    pose proof (stop_facts P w (t ++ [EvLog debug "destroy tcp_server"])) as H.
    destruct (stop _ _ _) as [[r w'] t'].
    destruct H as (evs & -> & Hcnt & Hfree & Hok).
    rewrite <- app_assoc. eexists. split; [reflexivity|].
    cbn [app count is_accept]. rewrite Hcnt.
    split; [lia|]. split; [done|]. split; [done|].
    intros Hm. destruct (Hfree Hm) as (-> & Hm' & Hg).
    do 2 (split; [done|]). unfold guarded in *. cbn [guarded_from].
    by rewrite Hg.
Qed.

(** X15. Every operation of the server keeps the client collection in
    order, in every state and whatever the outcome: no connection is held
    twice, and every connection held is a live object whose disconnection
    notifier is the server's removal path for that very connection. *)
Theorem client_collection_stays_in_order (P : platform) (op : server_op)
    (w : world) (t : list event) :
  collection_ok w →
  let '(r, w', t') := run_server_op P op w t in
  collection_ok w'.
Proof.
  intros Hok. pose proof (server_op_facts P op w t) as H.
  destruct (run_server_op P op w t) as [[r w'] t'].
  destruct H as (evs & _ & _ & _ & H & _). by apply H.
Qed.

Lemma client_collection_stays_in_order_witness :
  collection_ok (one_event None).1.2.
Proof.
  assert (collection_ok (started None).1.2) as Hok
    by (apply collection_ok_empty; by vm_compute).
  exact (client_collection_stays_in_order (scripted no_failure 0)
           (sop_on_read_available 3) (started None).1.2 (started None).2 Hok).
Defined.

(** X16. Entered with the client mutex free, no operation of the server
    blocks on the mutex, and each leaves it free, also when it throws. *)
Theorem server_operations_release_mutex (P : platform) (op : server_op)
    (w : world) (t : list event) :
  m_clients_mtx (server w) = false →
  let '(r, w', t') := run_server_op P op w t in
  r ≠ Deadlock ∧ m_clients_mtx (server w') = false.
Proof.
  intros Hm. pose proof (server_op_facts P op w t) as H.
  destruct (run_server_op P op w t) as [[r w'] t'].
  destruct H as (evs & _ & _ & _ & _ & H).
  destruct (H Hm) as (Hr & Hm' & _). done.
Qed.

Lemma server_operations_release_mutex_witness :
  let '(r, w', t') :=
    run_server_op (scripted no_failure 0) sop_stop
      (one_event None).1.2 (one_event None).2 in
  r ≠ Deadlock ∧ m_clients_mtx (server w') = false.
Proof.
  exact (server_operations_release_mutex (scripted no_failure 0) sop_stop
           (one_event None).1.2 (one_event None).2 ltac:(by vm_compute)).
Defined.

(** X17. Entered with the client mutex free, the only change to the client
    list that a server operation makes without holding the mutex is the
    [push_back] of [on_read_available]: whenever the events of an operation
    break the lock discipline, the operation is [on_read_available] and the
    list has grown by the connection just accepted.  [start], [stop], the
    destructor and [on_client_disconnected] always keep the discipline. *)
Theorem only_accept_path_mutates_unlocked (P : platform) (op : server_op)
    (w : world) (t : list event) :
  m_clients_mtx (server w) = false →
  let '(r, w', t') := run_server_op P op w t in
  guarded (added t t') = false →
  (∃ fd, op = sop_on_read_available fd) ∧
  m_clients (server w') = m_clients (server w) ++ [fresh (dom (clients w))].
Proof.
  intros Hm. pose proof (server_op_facts P op w t) as H.
  destruct (run_server_op P op w t) as [[r w'] t'].
  destruct H as (evs & -> & _ & _ & _ & H).
  destruct (H Hm) as (_ & _ & Hg). by rewrite added_app.
Qed.

Lemma only_accept_path_mutates_unlocked_witness :
  m_clients (server (one_event None).1.2) =
    m_clients (server (started None).1.2) ++
      [fresh (dom (clients (started None).1.2))].
Proof.
  exact (proj2 (only_accept_path_mutates_unlocked (scripted no_failure 0)
                  (sop_on_read_available 3) (started None).1.2
                  (started None).2 ltac:(by vm_compute) ltac:(by vm_compute))).
Defined.

(** X18. A server operation calls [::accept] at most once: one readiness
    event takes one connection from the backlog, never more; and only
    [on_read_available] calls it at all. *)
Theorem at_most_one_accept_per_operation (P : platform) (op : server_op)
    (w : world) (t : list event) :
  let '(r, w', t') := run_server_op P op w t in
  (count is_accept (added t t') ≤ 1)%nat ∧
  ((∀ fd, op ≠ sop_on_read_available fd) →
     count is_accept (added t t') = 0%nat).
Proof.
  pose proof (server_op_facts P op w t) as H.
  destruct (run_server_op P op w t) as [[r w'] t'].
  destruct H as (evs & -> & H1 & H0 & _). by rewrite added_app.
Qed.

Lemma at_most_one_accept_per_operation_witness :
  count is_accept
    (added (one_event None).2
       (run_server_op (scripted no_failure 0) sop_stop
          (one_event None).1.2 (one_event None).2).2) = 0%nat.
Proof.
  pose proof (at_most_one_accept_per_operation (scripted no_failure 0)
                sop_stop (one_event None).1.2 (one_event None).2) as H.
  destruct (run_server_op _ _ _ _) as [[r w'] t'].
  destruct H as [_ H]. by apply H.
Defined.

(** X19. [operator==] on servers compares the listening sockets only, so
    any two servers that [stop()] has stopped are equal, to each other and
    to a newly constructed server, whatever their callbacks were. *)
Theorem stopped_servers_are_equal (P : platform) (w1 w2 : world)
    (t1 t2 : list event) :
  m_is_running (server w1) = true → m_clients_mtx (server w1) = false →
  m_is_running (server w2) = true → m_clients_mtx (server w2) = false →
  tcp_server_eqb (server (stop P w1 t1).1.2) (server (stop P w2 t2).1.2)
    = true ∧
  tcp_server_eqb (server (stop P w1 t1).1.2) tcp_server_new = true ∧
  tcp_server_neqb (server (stop P w1 t1).1.2) tcp_server_new = false.
Proof.
  intros Hr1 Hm1 Hr2 Hm2.
  destruct (stop_running P w1 t1 Hr1 Hm1)
    as (w1' & ? & ? & -> & _ & _ & _ & Hs1 & _).
  destruct (stop_running P w2 t2 Hr2 Hm2)
    as (w2' & ? & ? & -> & _ & _ & _ & Hs2 & _).
  unfold tcp_server_neqb, tcp_server_eqb, tcp_socket_eqb. cbn.
  rewrite Hs1, Hs2. cbn. by rewrite !bool_decide_true.
Qed.

Lemma stopped_servers_are_equal_witness :
  tcp_server_eqb
    (server (stop (scripted no_failure 0)
               (one_event None).1.2 (one_event None).2).1.2)
    (server (stop (scripted no_failure 0)
               (started (Some reject_all)).1.2
               (started (Some reject_all)).2).1.2) = true.
Proof.
  exact (proj1 (stopped_servers_are_equal (scripted no_failure 0)
                  (one_event None).1.2 (started (Some reject_all)).1.2
                  (one_event None).2 (started (Some reject_all)).2
                  ltac:(by vm_compute) ltac:(by vm_compute)
                  ltac:(by vm_compute) ltac:(by vm_compute))).
Defined.

(** X20. A readiness event handled by a server that is not running and
    whose listening socket is closed does not go unnoticed: [accept] opens
    a new descriptor through [::socket]; when [::accept] on it fails, the
    handler logs the failure and calls [stop()], which does nothing
    because the server is not running, and returns.  The new descriptor is
    left open in the listening socket, untracked, with the server still not
    running. *)
Theorem stale_event_leaves_descriptor_open (P : platform) (fd : fd_t)
    (w : world) (t : list event) :
  let t1 := t ++ [EvLog info "tcp_server received new connection"] in
  let fd' := sys_ret P t1 sys_socket in
  m_is_running (server w) = false →
  m_fd (m_socket (server w)) = -1 →
  fd' ≠ -1 →
  sys_ret P (t1 ++ [EvSys sys_socket fd']) (sys_accept fd') = -1 →
  let '(r, w', t') := on_read_available P fd w t in
  r = Return () ∧
  m_is_running (server w') = false ∧
  m_fd (m_socket (server w')) = fd' ∧
  m_type (m_socket (server w')) = SERVER ∧
  io_service w' = io_service w ∧
  count is_close (added t t') = 0%nat ∧
  added t t' =
    [EvLog info "tcp_server received new connection";
     EvSys sys_socket fd'; EvSys (sys_accept fd') (-1);
     EvLog warn "accept operation failure"].
Proof.
  intros t1 fd' Hr Hfd Hne Hacc.
  assert (accept P (m_socket (server w)) t1 =
            (Throw {| err_level := error; what := "accept() failure" |},
             set_m_type SERVER
               (set_m_type UNKNOWN (set_m_fd fd' (m_socket (server w)))),
             (t1 ++ [EvSys sys_socket fd']) ++
               [EvSys (sys_accept fd') (-1)])) as Hrun.
  { unfold_socket. cbn. rewrite Hfd. fold fd'.
    repeat (case_decide; cbn); try done.
    - by match goal with H : _ ∧ _ |- _ => destruct H end.
    - by match goal with H : sys_ret _ _ _ = -1 |- _ => rewrite H end. }
  rewrite (on_read_available_fail P fd w t _ _ _ Hrun).
  rewrite stop_not_running by done.
  subst t1. rewrite <- !app_assoc, added_app. done.
Qed.

Lemma stale_event_leaves_descriptor_open_witness :
  let P := scripted accept_fails 0 in
  let '(r, w', t') := on_read_available P 3 world_new [] in
  r = Return () ∧ m_is_running (server w') = false ∧
  m_fd (m_socket (server w')) = 4 ∧ count is_close t' = 0%nat.
Proof.
  intros P.
  pose proof (stale_event_leaves_descriptor_open P 3 world_new []
                eq_refl eq_refl ltac:(by vm_compute) eq_refl) as H.
  destruct (on_read_available P 3 world_new []) as [[r w'] t'].
  destruct H as (Hr & Hrun & Hfd & _ & _ & Hcl & _).
  unfold added in Hcl. cbn in Hcl, Hfd. done.
Defined.

Lemma operation_keeps_host_and_port P op s t :
  let '(r, s', t') := run_op P op s t in
  m_host s' = m_host s ∧ m_port s' = m_port s.
Proof.
  destruct op; cbn [run_op]; try rewrite close_run.
  all: unfold_socket; cbn.
  all: repeat (case_decide; cbn); try done.
  all: try (destruct (hostent P _ host); cbn; repeat (case_decide; cbn)).
  all: done.
Qed.

(** X21. [start] followed by [stop] is a round trip but for the admission
    callback.  From a server that is not running, has no clients and whose
    listening socket is closed (a new server, or one that was stopped),
    when [start] returns, [stop] returns too and leaves the server as it
    was, with the callback given to [start] still stored, the client objects
    untouched, and the registry without the entry of the descriptor that
    [start] opened; that descriptor is closed, once, and nothing else is. *)
Theorem start_stop_round_trip (P : platform) (host : string) (port : Z)
    (callback : option (tcp_client → bool)) (w : world) (t : list event) :
  m_is_running (server w) = false →
  m_clients_mtx (server w) = false →
  m_clients (server w) = [] →
  m_fd (m_socket (server w)) = -1 →
  m_type (m_socket (server w)) = UNKNOWN →
  let '(r1, w1, t1) := start P host port callback w t in
  r1 = Return () →
  let '(r2, w2, t2) := stop P w1 t1 in
  r2 = Return () ∧
  server w2 = set_m_on_new_connection_callback callback (server w) ∧
  clients w2 = clients w ∧
  io_service w2 = delete (m_fd (m_socket (server w1))) (io_service w) ∧
  count is_close (added t t2) = 1%nat ∧
  count (is_close_of (m_fd (m_socket (server w1)))) (added t t2) = 1%nat.
Proof.
  intros Hr Hm Hcs Hfd Hty.
  unfold start, is_running, on_m_socket, track, set_rd_callback.
  unfold_M. cbn. rewrite Hr. cbn.
  pose proof (typed_operation_facts P (op_bind host port) SERVER
                (m_socket (server w)) t eq_refl) as Hb.
  pose proof (operation_keeps_host_and_port P (op_bind host port)
                (m_socket (server w)) t) as Hb'.
  cbn [run_op] in Hb, Hb'.
  destruct (bind P host port (m_socket (server w)) t) as [[rb sk1] t1].
  destruct Hb as (evs1 & -> & Hcl1 & _ & _ & _ & _ & _ & _).
  destruct Hb' as [Hh1 Hp1].
  destruct rb as [[]| |]; cbn; try (intros Hx; discriminate Hx).
  pose proof (typed_operation_facts P
                (op_listen (TACOPIE_CONNECTION_QUEUE_SIZE P)) SERVER
                sk1 (t ++ evs1) eq_refl) as Hl.
  pose proof (operation_keeps_host_and_port P
                (op_listen (TACOPIE_CONNECTION_QUEUE_SIZE P))
                sk1 (t ++ evs1)) as Hl'.
  cbn [run_op] in Hl, Hl'.
  destruct (listen P (TACOPIE_CONNECTION_QUEUE_SIZE P) sk1 (t ++ evs1))
    as [[rl sk2] t2].
  destruct Hl as (evs2 & -> & Hcl2 & _ & _ & _ & _ & Hret2 & _).
  destruct Hl' as [Hh2 Hp2].
  destruct rl as [[]| |]; cbn; try (intros Hx; discriminate Hx).
  intros _. destruct (Hret2 eq_refl) as [Hfd2 Hty2].
  unfold stop, is_running, untrack, on_m_socket, lock_guard.
  unfold_M. cbn. rewrite close_run. cbn. rewrite Hm. cbn. rewrite Hcs. cbn.
  rewrite decide_True by done.
  split; [done|].
  split.
  { destruct w as [[sk run cs mtx cb0] cl io]. cbn in *. subst.
    destruct sk as [fd0 h0 p0 ty0], sk2 as [fd2 h2 p2 ty2]. cbn in *.
    unfold set_m_clients_mtx, set_m_clients, set_m_socket, set_m_is_running,
      set_m_on_new_connection_callback, set_m_type, set_m_fd. cbn.
    congruence. }
  split; [done|].
  split.
  { apply map_eq. intros i.
    destruct (decide (i = m_fd sk2)) as [->|Hne].
    - by rewrite !lookup_delete_eq.
    - by rewrite !lookup_delete_ne, lookup_alter_ne, lookup_insert_ne. }
  rewrite <- !app_assoc, added_app, !count_app, Hcl1, Hcl2. cbn.
  assert (count (is_close_of (m_fd sk2)) evs1 = 0%nat) as ->.
  { revert Hcl1. clear. induction evs1 as [|[| [] ?| | |] evs1 IH]; cbn;
      try done; intros; try lia; apply IH; lia. }
  assert (count (is_close_of (m_fd sk2)) evs2 = 0%nat) as ->.
  { revert Hcl2. clear. induction evs2 as [|[| [] ?| | |] evs2 IH]; cbn;
      try done; intros; try lia; apply IH; lia. }
  by rewrite bool_decide_true.
Qed.

Lemma start_stop_round_trip_witness :
  let P := scripted no_failure 0 in
  let '(r2, w2, t2) := stop P (started None).1.2 (started None).2 in
  r2 = Return () ∧ server w2 = tcp_server_new ∧ io_service w2 = ∅ ∧
  count is_close t2 = 1%nat.
Proof.
  intros P.
  pose proof (start_stop_round_trip P "localhost" 8080 None world_new []
                eq_refl eq_refl eq_refl eq_refl eq_refl) as H.
  unfold started. fold P.
  destruct (start P "localhost" 8080 None world_new []) as [[r1 w1] t1] eqn:E.
  assert (r1 = Return ()) as Hr1 by (by vm_compute in E; inversion E).
  specialize (H Hr1). cbn [fst snd].
  destruct (stop P w1 t1) as [[r2 w2] t2].
  destruct H as (Hr2 & Hs & _ & Hio & Hcl & _).
  unfold added in Hcl. cbn in Hcl, Hs, Hio.
  split; [done|]. split; [done|]. split; [|done].
  rewrite Hio. apply delete_empty.
Defined.

(** X22. A closed socket can be used again, in either role: after
    [close()], no typed operation is refused for the type the socket had;
    the operation opens a new descriptor through [::socket] and, when that
    succeeds, the socket holds it and has the type of the operation. *)
Theorem closed_socket_takes_any_type (P : platform) (op : socket_op)
    (ty : type) (s : tcp_socket) (t : list event) :
  required_type op = Some ty →
  let '(_, s1, t1) := close P s t in
  let '(r, s2, t2) := run_op P op s1 t1 in
  r ≠ Throw invalid_operation ∧
  m_fd s2 = sys_ret P t1 sys_socket ∧
  (sys_ret P t1 sys_socket ≠ -1 → m_type s2 = ty).
Proof.
  intros Hop. rewrite close_run.
  destruct op; cbn in Hop; inversion Hop; subst ty; clear Hop.
  all: cbn [run_op]; unfold_socket; cbn.
  all: repeat (case_decide; cbn); try done.
  all: try match goal with H : _ ∧ _ |- _ => by destruct H end.
  all: try (destruct (hostent P _ host); cbn; repeat (case_decide; cbn)).
  all: done.
Qed.

Lemma closed_socket_takes_any_type_witness :
  let P := scripted no_failure 0 in
  let '(_, s1, t1) := close P client_socket [] in
  let '(r, s2, t2) := run_op P (op_listen 16) s1 t1 in
  r = Return () ∧ m_type s2 = SERVER ∧ m_fd s2 = 5.
Proof.
  intros P.
  pose proof (closed_socket_takes_any_type P (op_listen 16) SERVER
                client_socket [] eq_refl) as H.
  destruct (close P client_socket []) as [[r1 s1] t1] eqn:E1.
  destruct (run_op P (op_listen 16) s1 t1) as [[r s2] t2] eqn:E2.
  destruct H as (_ & Hfd & Hty).
  assert (t1 = [EvLog debug "close socket"; EvSys (sys_close 5) 0]) as ->
    by (by vm_compute in E1; inversion E1).
  assert (s1 = tcp_socket_from (-1) "" 0 UNKNOWN) as ->
    by (by vm_compute in E1; inversion E1).
  split; [by vm_compute in E2; inversion E2|].
  split; [by apply Hty|exact Hfd].
Defined.
